(** * Decarbonization analyzer: a shallow embedding of
    [decarbonization_analyzer.py] and the properties of its text matcher,
    search client, goal extractor and pipeline driver.

    Conventions of the embedding.
    - A Python [str] is a Rocq [string]; a character is read as the Unicode
      code point of the same number (0..255, Latin-1), and [str.lower],
      [str.split], [str.strip], the regex classes [\d], [\w] are given on that
      range as CPython defines them.
    - A value decoded from JSON is a [json]; a Python [dict] is an association
      list in insertion order.
    - A Python exception is a constructor of [exn]; code that can raise
      returns an [exc]; code that also talks to the network, sleeps or
      prints is a function of the [World].
    - Calls to [logging] are left out: they only append to the debug file,
      and the world does not show that file.
    - Writing the CSV is an event of the trace; a write that fails (a path
      that cannot be written) is not modelled. *)

From Stdlib Require Import ZArith QArith List String Ascii Bool Lia.
Import ListNotations.

Local Open Scope Z_scope.
Local Open Scope list_scope.
Local Open Scope string_scope.

(** ** Python strings *)

Module PyStr.

Definition code (c : ascii) : N := N_of_ascii c.

Definition in_range (lo hi : N) (c : ascii) : bool :=
  ((lo <=? code c) && (code c <=? hi))%N.

(** [str.isspace] on code points below 256. *)
Definition isspace (c : ascii) : bool :=
  in_range 9 13 c || in_range 28 32 c
  || (code c =? 133)%N || (code c =? 160)%N.

Definition is_ascii_upper (c : ascii) : bool := in_range 65 90 c.
Definition is_ascii_lower (c : ascii) : bool := in_range 97 122 c.
Definition is_ascii_alpha (c : ascii) : bool :=
  is_ascii_upper c || is_ascii_lower c.
Definition is_digit (c : ascii) : bool := in_range 48 57 c.

(** [str.lower] on one code point: A-Z and the Latin-1 capitals
    U+00C0..U+00DE (U+00D7, the multiplication sign, excepted). *)
Definition lower_char (c : ascii) : ascii :=
  if is_ascii_upper c || (in_range 192 222 c && negb (code c =? 215)%N)
  then ascii_of_N (code c + 32)
  else c.

Fixpoint lower (s : string) : string :=
  match s with
  | EmptyString => EmptyString
  | String c s' => String (lower_char c) (lower s')
  end.

(** [sub in s]. *)
Fixpoint contains (sub s : string) : bool :=
  prefix sub s ||
  match s with
  | EmptyString => false
  | String _ s' => contains sub s'
  end.

(** [c in s] for a single character. *)
Fixpoint has_char (c : ascii) (s : string) : bool :=
  match s with
  | EmptyString => false
  | String d s' => Ascii.eqb c d || has_char c s'
  end.

Fixpoint forallb (p : ascii -> bool) (s : string) : bool :=
  match s with
  | EmptyString => true
  | String c s' => p c && forallb p s'
  end.

Fixpoint filter (p : ascii -> bool) (s : string) : string :=
  match s with
  | EmptyString => EmptyString
  | String c s' => if p c then String c (filter p s') else filter p s'
  end.

(** [s.split()]: the maximal runs of non-whitespace characters. [cur] is
    the run being read. *)
Fixpoint split_from (cur s : string) : list string :=
  match s with
  | EmptyString => match cur with EmptyString => [] | _ => [cur] end
  | String c s' =>
      if isspace c
      then match cur with
           | EmptyString => split_from EmptyString s'
           | _ => cur :: split_from EmptyString s'
           end
      else split_from (cur ++ String c EmptyString) s'
  end.

Definition split (s : string) : list string := split_from EmptyString s.

Fixpoint lstrip_by (p : ascii -> bool) (s : string) : string :=
  match s with
  | EmptyString => EmptyString
  | String c s' => if p c then lstrip_by p s' else s
  end.

Fixpoint rstrip_by (p : ascii -> bool) (s : string) : string :=
  match s with
  | EmptyString => EmptyString
  | String c s' =>
      match rstrip_by p s' with
      | EmptyString => if p c then EmptyString else String c EmptyString
      | r => String c r
      end
  end.

(** [s.strip()]. *)
Definition strip (s : string) : string := rstrip_by isspace (lstrip_by isspace s).

(** [s[:n]]. *)
Fixpoint take (n : nat) (s : string) : string :=
  match n, s with
  | O, _ => EmptyString
  | _, EmptyString => EmptyString
  | S n', String c s' => String c (take n' s')
  end.

(** [s.partition(c)] as (head, found, tail). *)
Fixpoint partition (c : ascii) (s : string) : string * bool * string :=
  match s with
  | EmptyString => (EmptyString, false, EmptyString)
  | String d s' =>
      if Ascii.eqb c d then (EmptyString, true, s')
      else let '(h, f, t) := partition c s' in
           if f then (String d h, true, t)
           else (String d s', false, EmptyString)
  end.

(** The third component of [s.rpartition(c)]: what follows the last [c],
    the whole of [s] when there is none. *)
Fixpoint rpartition_tail (c : ascii) (s : string) : string :=
  match s with
  | EmptyString => EmptyString
  | String d s' =>
      if has_char c s' then rpartition_tail c s'
      else if Ascii.eqb c d then s' else s
  end.

(** ["\n".join(l)]. *)
Fixpoint join (sep : string) (l : list string) : string :=
  match l with
  | [] => EmptyString
  | [x] => x
  | x :: l' => x ++ sep ++ join sep l'
  end.

End PyStr.

(** ** Decoded JSON values and Python dicts *)

#[warnings="-register-all"]
Inductive json : Type :=
| JNull
| JBool (b : bool)
| JInt (z : Z)
| JFloat (q : Q)
| JStr (s : string)
| JArr (l : list json)
| JObj (kvs : list (string * json)).

Definition dict : Type := list (string * json).

(** [d.get(k)] as an option. *)
Fixpoint dict_lookup (k : string) (d : dict) : option json :=
  match d with
  | [] => None
  | (k', v) :: d' => if String.eqb k k' then Some v else dict_lookup k d'
  end.

(** [d.get(k, default)]. *)
Definition dict_get (k : string) (default : json) (d : dict) : json :=
  match dict_lookup k d with
  | Some v => v
  | None => default
  end.

(** [d[k] = v]: an existing key keeps its place, a new one goes last. *)
Fixpoint dict_set (k : string) (v : json) (d : dict) : dict :=
  match d with
  | [] => [(k, v)]
  | (k', v') :: d' =>
      if String.eqb k k' then (k, v) :: d' else (k', v') :: dict_set k v d'
  end.

Definition dict_keys (d : dict) : list string := map fst d.

(** Python truth value of a decoded JSON value. *)
Definition truthy (v : json) : bool :=
  match v with
  | JNull => false
  | JBool b => b
  | JInt z => negb (z =? 0)%Z
  | JFloat q => negb (Qnum q =? 0)%Z
  | JStr s => negb (String.eqb s "")
  | JArr l => match l with [] => false | _ => true end
  | JObj d => match d with [] => false | _ => true end
  end.

(** ** Exceptions *)

Inductive exn : Type :=
| ValueError
| AttributeError
| TypeError
| KeyError
| ZeroDivisionError
| RequestException.

Inductive exc (A : Type) : Type :=
| Ok (a : A)
| Raise (e : exn).
Arguments Ok {A} a.
Arguments Raise {A} e.

Definition rbind {A B} (r : exc A) (f : A -> exc B) : exc B :=
  match r with
  | Ok a => f a
  | Raise e => Raise e
  end.

Declare Scope py_scope.
Delimit Scope py_scope with py.
Notation "x <- r ;; k" := (rbind r (fun x => k))
  (at level 61, r at next level, right associativity) : py_scope.

(** [v.get(k, default)] on an arbitrary value: only a dict has [get]. *)
Definition py_get (v : json) (k : string) (default : json) : exc json :=
  match v with
  | JObj d => Ok (dict_get k default d)
  | _ => Raise AttributeError
  end.

(** [v.lower()] on an arbitrary value: only a [str] has [lower]. *)
Definition py_lower (v : json) : exc string :=
  match v with
  | JStr s => Ok (PyStr.lower s)
  | _ => Raise AttributeError
  end.

(** ** Library functions that are taken as given

    [check_bracketed_netloc n] is true when [urllib.parse.urlsplit] accepts
    the netloc [n], which holds both an opening and a closing bracket: the
    bracketed host has to be an IPv6 or IPvFuture literal, as [ipaddress]
    decides, and releases of CPython differ in what else they refuse.
    [json_loads s] is [json.loads] on a text that starts with an opening
    brace, so that it returns a dict or raises a decoding error ([None]).
    [py_str v] is [str(v)], as an f-string formats a decoded value.
    [series_is_yes col] is the pandas expression [col.str.lower() == 'yes']
    on a column of values. *)
Class PyLib : Type := {
  check_bracketed_netloc : string -> bool;
  json_loads : string -> option dict;
  py_str : json -> string;
  series_is_yes : list json -> exc (list bool)
}.

(** ** [urllib.parse.urlparse(url).hostname], after CPython 3.12 *)

Module Urllib.
Section WithLib.
Context `{PyLib}.

(** [url.lstrip(_WHATWG_C0_CONTROL_OR_SPACE)] *)
Definition lstrip_c0 (url : string) : string :=
  PyStr.lstrip_by (PyStr.in_range 0 32) url.

(** removal of [_UNSAFE_URL_BYTES_TO_REMOVE]: tab, CR, LF *)
Definition is_unsafe (c : ascii) : bool :=
  (PyStr.code c =? 9)%N || (PyStr.code c =? 13)%N || (PyStr.code c =? 10)%N.
Definition remove_unsafe (url : string) : string :=
  PyStr.filter (fun c => negb (is_unsafe c)) url.

(** [c in scheme_chars] *)
Definition is_scheme_char (c : ascii) : bool :=
  PyStr.is_ascii_alpha c || PyStr.is_digit c
  || Ascii.eqb c "+" || Ascii.eqb c "-" || Ascii.eqb c ".".

(** The text left once a leading scheme and its colon are removed. *)
Definition strip_scheme (url : string) : string :=
  match PyStr.partition ":" url with
  | (String c0 pre, true, rest) =>
      if PyStr.is_ascii_alpha c0 && PyStr.forallb is_scheme_char (String c0 pre)
      then rest else url
  | _ => url
  end.

Definition is_netloc_delim (c : ascii) : bool :=
  Ascii.eqb c "/" || Ascii.eqb c "?" || Ascii.eqb c "#".

(** [_splitnetloc(url, 2)[0]], given the text after the two slashes. *)
Fixpoint take_netloc (s : string) : string :=
  match s with
  | EmptyString => EmptyString
  | String c s' =>
      if is_netloc_delim c then EmptyString else String c (take_netloc s')
  end.

(** The [netloc] of [urlsplit(url)], or the [ValueError] it raises on
    unbalanced or invalid brackets. [urlsplit] also runs [_checknetloc],
    which raises when the NFKC form of the netloc gains one of / ? # @ :
    (as with U+2100); no character below U+0100 does that, so on the
    strings of this model the step never raises and is left out. *)
Definition urlsplit_netloc (url : string) : exc string :=
  let url := remove_unsafe (lstrip_c0 url) in
  let url := strip_scheme url in
  match url with
  | String "/" (String "/" rest) =>
      let netloc := take_netloc rest in
      let opens := PyStr.has_char "[" netloc in
      let closes := PyStr.has_char "]" netloc in
      if (opens && negb closes) || (closes && negb opens)
      then Raise ValueError
      else if opens && closes
      then
        if check_bracketed_netloc netloc then Ok netloc
        else Raise ValueError
      else Ok netloc
  | _ => Ok EmptyString
  end.

(** The [hostname] property of a split result: [None] when empty. *)
Definition hostname_of_netloc (netloc : string) : option string :=
  let hostinfo := PyStr.rpartition_tail "@" netloc in
  let '(_, have_open_br, bracketed) := PyStr.partition "[" hostinfo in
  let hostname :=
    if have_open_br
    then let '(h, _, _) := PyStr.partition "]" bracketed in h
    else let '(h, _, _) := PyStr.partition ":" hostinfo in h in
  match hostname with
  | EmptyString => None
  | _ =>
      let '(h, percent, zone) := PyStr.partition "%" hostname in
      Some (PyStr.lower h ++ (if percent then "%" else "") ++ zone)
  end.

(** [urlparse(url).hostname] *)
Definition urlparse_hostname (url : string) : exc (option string) :=
  (netloc <- urlsplit_netloc url ;;
   Ok (hostname_of_netloc netloc))%py.

End WithLib.
End Urllib.

(** ** Text matcher *)

Section TextMatcher.
Context `{PyLib}.

Definition common_words : list string :=
  ["the"; "of"; "and"; "company"; "inc"; "co"; "-"].

Definition is_common_word (token : string) : bool :=
  existsb (String.eqb token) common_words.

(** [[token for token in org_name.lower().split()
      if token not in common_words]] *)
Definition org_tokens (org_name : string) : list string :=
  List.filter (fun token => negb (is_common_word token))
              (PyStr.split (PyStr.lower org_name)).

Definition result_matches_org (org_name : string) (result : json)
  : exc bool :=
  (let org_tokens := org_tokens org_name in
   t <- py_get result "title" (JStr "") ;;
   title <- py_lower t ;;
   d <- py_get result "description" (JStr "") ;;
   desc <- py_lower d ;;
   Ok (existsb (fun token => PyStr.contains token title
                             || PyStr.contains token desc) org_tokens))%py.

(** [urlparse(url).hostname or ""]. The argument is whatever
    [r.get("url", "")] gave: on a value that is not a [str], [urlparse]
    decodes a false one ([None], [0], an empty list) to the empty text
    and fails on the others, which have no [decode]. *)
Definition hostname_or_empty (url : json) : exc string :=
  match url with
  | JStr u =>
      (parsed_hostname <- Urllib.urlparse_hostname u ;;
       Ok (match parsed_hostname with Some h => h | None => "" end))%py
  | _ => if truthy url then Raise AttributeError else Ok ""
  end.

Definition url_belongs_to_org (org_name : string) (url : json)
  : exc bool :=
  (hostname <- hostname_or_empty url ;;
   let org_tokens := org_tokens org_name in
   Ok (existsb (fun token => PyStr.contains token hostname) org_tokens))%py.

End TextMatcher.


(** ** The world: network, clock, environment, console and files *)

Record Response : Type := {
  status_code : Z;
  (** what [response.json()] returns, [None] when it raises *)
  json_body : option json;
  text : string
}.

(** What a request comes to: a response, or an exception of [requests]. *)
Inductive reply : Type :=
| Answered (r : Response)
| Failed.

Record DataFrame : Type := {
  columns : list string;
  rows : list dict
}.

Inductive console_line : Type :=
| MissingKeys (names : list string)
| EnvHint
| Analyzing (org : string)
| CsvSaved (path : string)
| TableHeader
| TableRow (row : dict)
| SummaryTitle
| SummaryRule
| TotalOrganizations (total_orgs : nat)
| OrganizationsWithGoals (orgs_with_goals : nat) (percent : Q).

Inductive event : Type :=
| EvGet (endpoint token q : string) (count : Z)
| EvPost (endpoint key prompt : string)
| EvSleep (seconds : Z)
| EvToCsv (path : string) (df : DataFrame)
| EvPrint (line : console_line).

(** [network n] is what the [n]-th request of the run comes to; [trace]
    lists what the program did, oldest first. *)
Record World : Type := {
  network : nat -> reply;
  requests_made : nat;
  environ : string -> option string;
  trace : list event
}.

Definition M (A : Type) : Type := World -> exc A * World.

Definition ret {A} (a : A) : M A := fun w => (Ok a, w).

Definition bind {A B} (m : M A) (f : A -> M B) : M B :=
  fun w =>
    match m w with
    | (Ok a, w') => f a w'
    | (Raise e, w') => (Raise e, w')
    end.

Definition lift {A} (r : exc A) : M A := fun w => (r, w).

(** [try: body / except Exception as e: handler(e)] *)
Definition try_except {A} (body : M A) (handler : exn -> M A) : M A :=
  fun w =>
    match body w with
    | (Ok a, w') => (Ok a, w')
    | (Raise e, w') => handler e w'
    end.

(** [try: body / finally: final] *)
Definition try_finally {A} (body : M A) (final : M unit) : M A :=
  fun w =>
    let '(r, w') := body w in
    match final w' with
    | (Ok _, w'') => (r, w'')
    | (Raise e, w'') => (Raise e, w'')
    end.

Declare Scope io_scope.
Delimit Scope io_scope with io.
Notation "x <- m ;; k" := (bind m (fun x => k))
  (at level 61, m at next level, right associativity) : io_scope.
Notation "m ;; k" := (bind m (fun _ => k))
  (at level 61, right associativity) : io_scope.

Definition emit (e : event) : M unit :=
  fun w => (Ok tt, {| network := network w;
                      requests_made := requests_made w;
                      environ := environ w;
                      trace := (trace w ++ [e])%list |}).

Definition sleep (seconds : Z) : M unit := emit (EvSleep seconds).
Definition print (line : console_line) : M unit := emit (EvPrint line).
Definition os_getenv (name : string) : M (option string) :=
  fun w => (Ok (environ w name), w).

(** One request: it is recorded, and the network decides what comes back. *)
Definition request (e : event) : M Response :=
  fun w =>
    let w' := {| network := network w;
                 requests_made := S (requests_made w);
                 environ := environ w;
                 trace := (trace w ++ [e])%list |} in
    match network w (requests_made w) with
    | Answered r => (Ok r, w')
    | Failed => (Raise RequestException, w')
    end.

(** [response.json()] *)
Definition response_json (response : Response) : exc json :=
  match json_body response with
  | Some v => Ok v
  | None => Raise ValueError
  end.

(** ** The analyzer *)

Record DecarbonizationAnalyzer : Type := {
  brave_api_key : string;
  anthropic_api_key : string
}.

Definition brave_search_endpoint : string :=
  "https://api.search.brave.com/res/v1/web/search".
Definition anthropic_endpoint : string :=
  "https://api.anthropic.com/v1/messages".

Definition search_query (org_name : string) : string :=
  org_name ++ " decarbonization goals net zero carbon neutral target date".

Definition requests_get_search (self : DecarbonizationAnalyzer)
    (org_name : string) : M Response :=
  request (EvGet brave_search_endpoint (brave_api_key self)
                 (search_query org_name) 5).

(** [json_data.get("web", {}).get("results", [])] *)
Definition web_results (json_data : json) : exc json :=
  (web <- py_get json_data "web" (JObj []) ;;
   py_get web "results" (JArr []))%py.

Definition search_organization (self : DecarbonizationAnalyzer)
    (org_name : string) : M json :=
  (try_finally
    (try_except
       (response <- requests_get_search self org_name ;;
        response <- (if (status_code response =? 429)%Z
                     then sleep 5 ;; requests_get_search self org_name
                     else ret response) ;;
        if (status_code response =? 200)%Z
        then try_except
               (json_data <- lift (response_json response) ;;
                lift (web_results json_data))
               (fun _ => ret (JArr []))
        else ret (JArr []))
       (fun _ => ret (JArr [])))
    (sleep 1))%io.

(** ** Goal extractor *)

Definition nl : string := String "010" EmptyString.

(** [for x in v]: a list gives its items, a [str] its characters, a dict
    its keys; nothing else decoded from JSON can be iterated. *)
Fixpoint chars (s : string) : list json :=
  match s with
  | EmptyString => []
  | String c s' => JStr (String c EmptyString) :: chars s'
  end.

Definition py_iter (v : json) : exc (list json) :=
  match v with
  | JArr l => Ok l
  | JStr s => Ok (chars s)
  | JObj d => Ok (map (fun kv => JStr (fst kv)) d)
  | _ => Raise TypeError
  end.

(** [re.search(r'({.*})', text, re.DOTALL)]: from the first opening brace
    to the last closing brace after it. *)
Fixpoint after_first_open (s : string) : option string :=
  match s with
  | EmptyString => None
  | String c s' => if Ascii.eqb c "{" then Some s' else after_first_open s'
  end.

Fixpoint upto_last_close (s : string) : option string :=
  match s with
  | EmptyString => None
  | String c s' =>
      match upto_last_close s' with
      | Some p => Some (String c p)
      | None => if Ascii.eqb c "}" then Some (String c EmptyString) else None
      end
  end.

Definition json_candidate (text : string) : option string :=
  match after_first_open text with
  | Some rest =>
      match upto_last_close rest with
      | Some p => Some (String "{" p)
      | None => None
      end
  | None => None
  end.

(** [\w] of a [str] pattern on code points below 256. *)
Definition is_word (c : ascii) : bool :=
  PyStr.is_digit c || PyStr.is_ascii_alpha c || Ascii.eqb c "_"
  || (PyStr.code c =? 170)%N || PyStr.in_range 178 179 c
  || (PyStr.code c =? 181)%N || PyStr.in_range 185 186 c
  || PyStr.in_range 188 190 c || PyStr.in_range 192 214 c
  || PyStr.in_range 216 246 c || PyStr.in_range 248 255 c.

Definition starts_with_word (s : string) : bool :=
  match s with
  | EmptyString => false
  | String c _ => is_word c
  end.

(** A match of [\b(20\d{2})\b] that starts at the head of [s], where
    [prev_is_word] tells whether the character before [s] is a word
    character. *)
Definition year_here (prev_is_word : bool) (s : string) : option string :=
  match s with
  | String c1 (String c2 (String d1 (String d2 rest))) =>
      if negb prev_is_word
         && Ascii.eqb c1 "2" && Ascii.eqb c2 "0"
         && PyStr.is_digit d1 && PyStr.is_digit d2
         && negb (starts_with_word rest)
      then Some (String c1 (String c2 (String d1 (String d2 EmptyString))))
      else None
  | _ => None
  end.

Fixpoint search_year (prev_is_word : bool) (s : string) : option string :=
  match year_here prev_is_word s with
  | Some y => Some y
  | None =>
      match s with
      | EmptyString => None
      | String c s' => search_year (is_word c) s'
      end
  end.

(** [re.search(r'\b(20\d{2})\b', desc)], as [match.group(1)]. *)
Definition re_search_year (desc : string) : option string :=
  search_year false desc.

(** A [for r in search_results: if ...: ...; break] loop: the first item
    for which [step] finds something; an exception of [step] ends it. *)
Fixpoint first_hit {A} (step : json -> exc (option A)) (rs : list json)
  : exc (option A) :=
  match rs with
  | [] => Ok None
  | r :: rs' =>
      match step r with
      | Raise e => Raise e
      | Ok (Some a) => Ok (Some a)
      | Ok None => first_hit step rs'
      end
  end.

Section GoalExtractor.
Context `{PyLib}.

Definition context_entry (result : json) : exc string :=
  (title <- py_get result "title" JNull ;;
   description <- py_get result "description" JNull ;;
   url <- py_get result "url" JNull ;;
   Ok ("Title: " ++ py_str title ++ nl
       ++ "Description: " ++ py_str description ++ nl
       ++ "URL: " ++ py_str url ++ nl ++ nl))%py.

Fixpoint add_entries (context : string) (search_results : list json)
  : exc string :=
  match search_results with
  | [] => Ok context
  | result :: rest =>
      (entry <- context_entry result ;;
       add_entries (context ++ entry) rest)%py
  end.

Definition build_context (org_name : string) (search_results : list json)
  : exc string :=
  add_entries ("Search results for " ++ org_name ++ ":" ++ nl) search_results.

Definition build_prompt (org_name context : string) : string :=
  "Based on these search results, determine the following for " ++ org_name
  ++ " using only information from "
  ++ "the organization's official website or its official press releases (do not use third-party sites):" ++ nl
  ++ "1. Does " ++ org_name ++ " have a stated decarbonization goal? (Answer Yes, No, or Not Found)" ++ nl
  ++ "2. If yes, what is their target date?" ++ nl
  ++ "3. What is the source URL for this information?" ++ nl
  ++ "4. In one to two sentences, provide a short description summarizing the organization's decarbonization goal, mission, or strategy." ++ nl ++ nl
  ++ "Search results:" ++ nl ++ context ++ nl
  ++ "Please provide the answers in JSON format with keys: has_goal, target_date, source_url, description".

Definition is_str (s : string) (v : json) : bool :=
  match v with
  | JStr s' => String.eqb s s'
  | _ => false
  end.

(** [[item.get("text", "") for item in content if isinstance(item, dict)]] *)
Definition content_texts (content : list json) : list json :=
  flat_map (fun item => match item with
                        | JObj d => [dict_get "text" (JStr "") d]
                        | _ => []
                        end) content.

(** ["\n".join(texts)]: every item has to be a [str]. *)
Fixpoint all_strings (texts : list json) : exc (list string) :=
  match texts with
  | [] => Ok []
  | JStr s :: rest => (l <- all_strings rest ;; Ok (s :: l))%py
  | _ :: _ => Raise TypeError
  end.

(** The text taken from the decoded body of the inference response:
    [result["completion"]], else [result["content"]], else empty. On a
    body that is not a dict, [in] is a membership or substring test, or
    a [TypeError], and indexing by a key is a [TypeError]. *)
Definition claude_response_text (result : json) : exc json :=
  match result with
  | JObj d =>
      match dict_lookup "completion" d with
      | Some completion => Ok completion
      | None =>
          match dict_lookup "content" d with
          | Some (JArr content) =>
              (texts <- all_strings (content_texts content) ;;
               Ok (JStr (PyStr.join nl texts)))%py
          | Some content => Ok content
          | None => Ok (JStr "")
          end
      end
  | JArr l =>
      if existsb (is_str "completion") l || existsb (is_str "content") l
      then Raise TypeError else Ok (JStr "")
  | JStr s =>
      if PyStr.contains "completion" s || PyStr.contains "content" s
      then Raise TypeError else Ok (JStr "")
  | _ => Raise TypeError
  end.

(** The body of the [try] once the response is there. *)
Definition parse_inference (response : Response) : exc dict :=
  if (status_code response =? 200)%Z
  then
    (result <- response_json response ;;
     claude_response_text <- claude_response_text result ;;
     match claude_response_text with
     | JStr response_text =>
         match json_candidate response_text with
         | Some json_str =>
             match json_loads json_str with
             | Some parsed_response => Ok parsed_response
             | None => Ok []
             end
         | None => Ok []
         end
     | _ => Raise TypeError
     end)%py
  else Ok [].

(** The inference step: one request, and an empty answer on any error. *)
Definition infer (self : DecarbonizationAnalyzer) (prompt : string)
  : M dict :=
  (try_except
     (response <- request (EvPost anthropic_endpoint
                                  (anthropic_api_key self) prompt) ;;
      lift (parse_inference response))
     (fun _ => ret []))%io.

(** [result_matches_org(org_name, r) and
     url_belongs_to_org(org_name, r.get("url", ""))] *)
Definition both_checks (org_name : string) (r : json) : exc bool :=
  (matches <- result_matches_org org_name r ;;
   if matches
   then (url <- py_get r "url" (JStr "") ;; url_belongs_to_org org_name url)
   else Ok false)%py.

(** What the source_url loop does with one result: [Some url] when the
    result is taken. *)
Definition source_url_step (org_name : string) (r : json)
  : exc (option json) :=
  (url <- py_get r "url" (JStr "") ;;
   if truthy url
   then (matches <- result_matches_org org_name r ;;
         if matches
         then (belongs <- url_belongs_to_org org_name url ;;
               Ok (if belongs then Some url else None))
         else Ok None)
   else Ok None)%py.

(** What the target_date loop does with one result. *)
Definition target_date_step (org_name : string) (r : json)
  : exc (option json) :=
  (ok <- both_checks org_name r ;;
   if ok
   then (desc <- py_get r "description" (JStr "") ;;
         match desc with
         | JStr desc =>
             Ok (match re_search_year desc with
                 | Some year => Some (JStr year)
                 | None => None
                 end)
         | _ => Raise TypeError
         end)
   else Ok None)%py.

Definition mentions_goal (desc_lower : string) : bool :=
  PyStr.contains "decarbon" desc_lower || PyStr.contains "net zero" desc_lower.

(** What the description loop does with one result. *)
Definition description_step (org_name : string) (r : json)
  : exc (option json) :=
  (desc <- py_get r "description" (JStr "") ;;
   match desc with
   | JStr desc =>
       if mentions_goal (PyStr.lower desc)
       then (ok <- both_checks org_name r ;;
             Ok (if ok
                 then Some (JStr (PyStr.take 250 (PyStr.strip desc)))
                 else None))
       else Ok None
   | _ => Raise AttributeError
   end)%py.

(** One fallback: [if not parsed_response.get(key): for r in ...]. *)
Definition fallback (key : string) (step : json -> exc (option json))
    (search_results : list json) (parsed_response : dict) : exc dict :=
  if truthy (dict_get key JNull parsed_response)
  then Ok parsed_response
  else
    (found <- first_hit step search_results ;;
     Ok (match found with
         | Some v => dict_set key v parsed_response
         | None => parsed_response
         end))%py.

(** The fallback stage: source_url, then target_date, then description. *)
Definition fallbacks (org_name : string) (search_results : list json)
    (parsed_response : dict) : exc dict :=
  (p <- fallback "source_url" (source_url_step org_name)
                 search_results parsed_response ;;
   p <- fallback "target_date" (target_date_step org_name)
                 search_results p ;;
   fallback "description" (description_step org_name) search_results p)%py.

(** The dict that [analyze_search_results] returns. *)
Definition goal_record (org_name : string) (parsed_response : dict) : dict :=
  [ ("organization", JStr org_name);
    ("has_goal", dict_get "has_goal" (JStr "Not Found") parsed_response);
    ("target_date", dict_get "target_date" JNull parsed_response);
    ("source_url", dict_get "source_url" JNull parsed_response);
    ("description", dict_get "description" (JStr "") parsed_response) ].

Definition analyze_search_results (self : DecarbonizationAnalyzer)
    (org_name : string) (search_results : json) : M dict :=
  if negb (truthy search_results)
  then ret [ ("organization", JStr org_name);
             ("has_goal", JStr "Not Found");
             ("target_date", JNull);
             ("source_url", JNull);
             ("description", JStr "") ]
  else
    (results <- lift (py_iter search_results) ;;
     context <- lift (build_context org_name results) ;;
     parsed_response <- infer self (build_prompt org_name context) ;;
     parsed_response <- lift (fallbacks org_name results parsed_response) ;;
     ret (goal_record org_name parsed_response))%io.

End GoalExtractor.

(** ** Pipeline driver *)

(** [pd.DataFrame(records)]: the columns are the keys, in the order in
    which the records first show them. *)
Fixpoint add_columns (cols : list string) (keys : list string) : list string :=
  match keys with
  | [] => cols
  | k :: keys' =>
      if existsb (String.eqb k) cols then add_columns cols keys'
      else add_columns (cols ++ [k])%list keys'
  end.

Definition DataFrame_of (records : list dict) : DataFrame :=
  {| columns := fold_left (fun cols r => add_columns cols (dict_keys r))
                          records [];
     rows := records |}.

(** [df[name]]: a [KeyError] when there is no such column. *)
Definition df_column (df : DataFrame) (name : string) : exc (list json) :=
  if existsb (String.eqb name) (columns df)
  then Ok (map (dict_get name JNull) (rows df))
  else Raise KeyError.

(** [a / b * 100] on two ints. *)
Definition percent_of (a b : nat) : exc Q :=
  match b with
  | O => Raise ZeroDivisionError
  | S _ => Ok (Qmult (Qmake (Z.of_nat a) (Pos.of_nat b)) (inject_Z 100))
  end.

(** The truth value of what [os.getenv] returned. *)
Definition env_set (v : option string) : bool :=
  match v with
  | Some s => negb (String.eqb s "")
  | None => false
  end.

Definition env_value (v : option string) : string :=
  match v with
  | Some s => s
  | None => ""
  end.

Fixpoint print_rows (rs : list dict) : M unit :=
  match rs with
  | [] => ret tt
  | row :: rest => (print (TableRow row) ;; print_rows rest)%io
  end.

Section PipelineDriver.
Context `{PyLib}.

(** The loop over the organizations; [results] is the list built so far. *)
Fixpoint analyze_all (analyzer : DecarbonizationAnalyzer)
    (org_list : list string) (results : list dict) : M (list dict) :=
  match org_list with
  | [] => ret results
  | org :: rest =>
      (print (Analyzing org) ;;
       search_results <- search_organization analyzer org ;;
       analysis <- analyze_search_results analyzer org search_results ;;
       sleep 1 ;;
       analyze_all analyzer rest (results ++ [analysis])%list)%io
  end.

(** The lines from [total_orgs = len(df)] to the end. *)
Definition print_summary (df : DataFrame) : M unit :=
  (let total_orgs := List.length (rows df) in
   has_goal <- lift (df_column df "has_goal") ;;
   is_yes <- lift (series_is_yes has_goal) ;;
   let orgs_with_goals := List.length (List.filter (fun b => b) is_yes) in
   print TableHeader ;;
   print_rows (rows df) ;;
   print SummaryTitle ;;
   print SummaryRule ;;
   print (TotalOrganizations total_orgs) ;;
   percent <- lift (percent_of orgs_with_goals total_orgs) ;;
   print (OrganizationsWithGoals orgs_with_goals percent))%io.

Definition analyze_decarbonization_goals (org_list : list string)
    (output_csv : string) : M unit :=
  (brave_api_key <- os_getenv "BRAVE_API_KEY" ;;
   anthropic_api_key <- os_getenv "ANTHROPIC_API_KEY" ;;
   if negb (env_set brave_api_key) || negb (env_set anthropic_api_key)
   then
     print (MissingKeys
              ((if env_set brave_api_key then [] else ["BRAVE_API_KEY"])
               ++ (if env_set anthropic_api_key then []
                   else ["ANTHROPIC_API_KEY"]))%list) ;;
     print EnvHint
   else
     let analyzer := {| brave_api_key := env_value brave_api_key;
                        anthropic_api_key := env_value anthropic_api_key |} in
     results <- analyze_all analyzer org_list [] ;;
     let df := DataFrame_of results in
     emit (EvToCsv output_csv df) ;;
     print (CsvSaved output_csv) ;;
     print_summary df)%io.

End PipelineDriver.

(** ** What the statements below speak of *)

(** The response that [search_organization] ends with: the first one, or
    the second when the first says 429. *)
Definition final_reply (w : World) : reply :=
  match network w (requests_made w) with
  | Answered r =>
      if (status_code r =? 429)%Z then network w (S (requests_made w))
      else Answered r
  | Failed => Failed
  end.

(** The first request is answered with status 429. *)
Definition rate_limited (w : World) : bool :=
  match network w (requests_made w) with
  | Answered r => (status_code r =? 429)%Z
  | Failed => false
  end.

(** A transport failure, a final status other than 200, or a body that
    does not decode. *)
Definition search_failed (w : World) : Prop :=
  match final_reply w with
  | Failed => True
  | Answered r => status_code r <> 200 \/ json_body r = None
  end.

Definition search_request (self : DecarbonizationAnalyzer) (org_name : string)
  : event :=
  EvGet brave_search_endpoint (brave_api_key self) (search_query org_name) 5.

Definition entry_is_yes (v : json) : bool :=
  match v with
  | JStr s => String.eqb (PyStr.lower s) "yes"
  | _ => false
  end.

Definition dq : string := String "034" EmptyString.

Definition yes_text : string :=
  "{" ++ dq ++ "has_goal" ++ dq ++ ": " ++ dq ++ "Yes" ++ dq ++ "}".

(** A library instance for running the model: every bracketed netloc is
    accepted, one text decodes (an answer that says Yes and nothing
    else), and the column test is made entry by entry. *)
#[export] Instance plain_lib : PyLib := {|
  check_bracketed_netloc := fun _ => true;
  json_loads := fun s => if String.eqb s yes_text
                         then Some [("has_goal", JStr "Yes")] else None;
  py_str := fun v => match v with JStr s => s | JNull => "None" | _ => "?" end;
  series_is_yes := fun col => Ok (map entry_is_yes col)
|}.

(** A world in which the requests are answered by [replies] in turn, and
    fail once the list is used up. *)
Definition world_of (replies : list reply) (env : string -> option string)
  : World :=
  {| network := fun n => nth n replies Failed;
     requests_made := 0;
     environ := env;
     trace := [] |}.

Definition no_env : string -> option string := fun _ => None.

Definition analyzer0 : DecarbonizationAnalyzer :=
  {| brave_api_key := "brave-key"; anthropic_api_key := "anthropic-key" |}.

Definition acme_result : json :=
  JObj [ ("title", JStr "Acme decarbonization");
         ("description", JStr "Acme targets net zero by 2035");
         ("url", JStr "https://acme.com/press") ].

Definition acme_body : json :=
  JObj [ ("web", JObj [ ("results", JArr [acme_result]) ]) ].

(** A body as the provider sends it, with entries besides the results. *)
Definition acme_full_body : json :=
  JObj [ ("type", JStr "search");
         ("query", JObj [ ("original", JStr "Acme Corp decarbonization goals");
                          ("more_results_available", JBool true) ]);
         ("web", JObj [ ("type", JStr "search");
                        ("results", JArr [acme_result]);
                        ("family_friendly", JBool true) ]) ].

Definition reply_429 : reply :=
  Answered {| status_code := 429; json_body := None; text := "Too Many Requests" |}.

Definition reply_200 (body : json) : reply :=
  Answered {| status_code := 200; json_body := Some body; text := "" |}.

(** An inference response in the content-block shape whose text wraps
    [yes_text] in a sentence. *)
Definition yes_reply : reply :=
  reply_200 (JObj [ ("content",
                     JArr [ JObj [ ("type", JStr "text");
                                   ("text", JStr ("Here is the answer: " ++ yes_text
                                                  ++ " as requested.")) ] ]) ]).

Definition five_keys : list string :=
  ["organization"; "has_goal"; "target_date"; "source_url"; "description"].

(** Whether the text [pre] ends in a word character; [before] answers
    for the empty text. *)
Fixpoint ends_in_word (before : bool) (pre : string) : bool :=
  match pre with
  | EmptyString => before
  | String c pre' => ends_in_word (is_word c) pre'
  end.

(** Four digits of which the first two are 2 and 0. *)
Definition is_year (y : string) : Prop :=
  exists d1 d2,
    y = String "2" (String "0" (String d1 (String d2 EmptyString)))
    /\ PyStr.is_digit d1 = true /\ PyStr.is_digit d2 = true.

(** [y] is a year that stands in [s] right after [pre] as a token: no
    word character touches it on either side. [before] tells whether a
    word character precedes [s]. *)
Definition token_at (before : bool) (s pre y : string) : Prop :=
  is_year y
  /\ exists post,
       s = pre ++ y ++ post
       /\ ends_in_word before pre = false
       /\ starts_with_word post = false.

Definition year_token_at (desc pre y : string) : Prop :=
  token_at false desc pre y.

(** [y] is the first year token of [desc]. *)
Definition first_year_token (desc y : string) : Prop :=
  exists pre,
    year_token_at desc pre y
    /\ forall pre' y', year_token_at desc pre' y' ->
                       (String.length pre <= String.length pre')%nat.

Section Official.
Context `{PyLib}.

(** The result passes the text check and its URL the hostname check. *)
Definition passes_both_checks (org_name : string) (r : json) : Prop :=
  result_matches_org org_name r = Ok true
  /\ exists url, py_get r "url" (JStr "") = Ok url
                 /\ url_belongs_to_org org_name url = Ok true.

(** The two checks can be made on the result: nothing is raised. *)
Definition checks_evaluate (org_name : string) (r : json) : Prop :=
  exists b, both_checks org_name r = Ok b.

(** The description of the result holds a year token. *)
Definition has_year_token (r : json) : Prop :=
  exists desc pre y,
    py_get r "description" (JStr "") = Ok (JStr desc)
    /\ year_token_at desc pre y.

(** A result as the search provider documents it: a record whose title,
    description and url, where present, are strings, the url being one
    that [urlparse] accepts. *)
Definition well_formed_result (r : json) : Prop :=
  exists d title desc url host,
    r = JObj d
    /\ dict_get "title" (JStr "") d = JStr title
    /\ dict_get "description" (JStr "") d = JStr desc
    /\ dict_get "url" (JStr "") d = JStr url
    /\ Urllib.urlparse_hostname url = Ok host.

End Official.

Definition acme_bad_url : json :=
  JObj [ ("title", JStr "Acme plan");
         ("description", JStr "Acme plan for 2030");
         ("url", JStr "http://[") ].

Definition six_results : json :=
  JArr [ acme_result; JObj [("title", JStr "no url here")]; JObj [];
         JStr "not a record"; JNull; acme_result ].

Definition acme_no_year : json :=
  JObj [ ("title", JStr "Acme sustainability");
         ("description", JStr "Acme report 20355, item_2040");
         ("url", JStr "https://www.acme.com/") ].

Definition other_result : json :=
  JObj [ ("title", JStr "Net zero by 2050");
         ("description", JStr "Industry news 2050");
         ("url", JStr "https://news.example.org/") ].

Definition both_keys : string -> option string :=
  fun name =>
    if String.eqb name "BRAVE_API_KEY" then Some "brave-key"
    else if String.eqb name "ANTHROPIC_API_KEY" then Some "anthropic-key"
    else None.

(** The decoded body holds the value [v] under web.results. *)
Definition has_results (body v : json) : Prop :=
  exists d web,
    body = JObj d
    /\ dict_lookup "web" d = Some (JObj web)
    /\ dict_lookup "results" web = Some v.

(** The record for an organization about which nothing was found. *)
Definition not_found_record (org_name : string) : dict :=
  [ ("organization", JStr org_name);
    ("has_goal", JStr "Not Found");
    ("target_date", JNull);
    ("source_url", JNull);
    ("description", JStr "") ].

Definition inference_request (self : DecarbonizationAnalyzer) (prompt : string)
  : event :=
  EvPost anthropic_endpoint (anthropic_api_key self) prompt.

(** The world after one more request, recorded as [e]. *)
Definition after_request (e : event) (w : World) : World :=
  {| network := network w;
     requests_made := S (requests_made w);
     environ := environ w;
     trace := (trace w ++ [e])%list |}.

Definition only_brave : string -> option string :=
  fun name => if String.eqb name "BRAVE_API_KEY" then Some "brave-key"
              else if String.eqb name "ANTHROPIC_API_KEY" then Some ""
              else None.

(** The time slept along a trace. *)
Fixpoint total_sleep (tr : list event) : Z :=
  match tr with
  | [] => 0
  | EvSleep seconds :: tr' => seconds + total_sleep tr'
  | _ :: tr' => total_sleep tr'
  end.

Section FirstWins.
Context `{PyLib}.

(** The result has a url with a true value and passes both checks. *)
Definition offers_source_url (org_name : string) (r : json) : Prop :=
  exists url,
    py_get r "url" (JStr "") = Ok url
    /\ truthy url = true
    /\ result_matches_org org_name r = Ok true
    /\ url_belongs_to_org org_name url = Ok true.

(** The description of the result mentions the goal, and the result
    passes both checks. *)
Definition offers_description (org_name : string) (r : json) : Prop :=
  exists desc,
    py_get r "description" (JStr "") = Ok (JStr desc)
    /\ mentions_goal (PyStr.lower desc) = true
    /\ passes_both_checks org_name r.

End FirstWins.

Definition padded_result : json :=
  JObj [ ("title", JStr "Acme");
         ("description", JStr "   Acme: Net Zero, by 2040.  ");
         ("url", JStr "https://acme.com/") ].

(** The value is a record (a dict). *)
Definition is_record (v : json) : Prop := exists d, v = JObj d.

(** ** Text matcher and URL parsing: examples *)

Example org_tokens_veolia :
  org_tokens "Veolia Energy NA - Philadelphia"
  = ["veolia"; "energy"; "na"; "philadelphia"].
Proof. reflexivity. Qed.

Example hostname_with_port :
  Urllib.urlparse_hostname "https://Acme.com:8080/press?x=1" = Ok (Some "acme.com").
Proof. reflexivity. Qed.

Example hostname_bracketed :
  Urllib.urlparse_hostname "http://user:pw@[FE80::1%Eth0]:80/"
  = Ok (Some "fe80::1%Eth0").
Proof. reflexivity. Qed.

Example hostname_without_slashes :
  Urllib.urlparse_hostname "acme.com/press" = Ok None.
Proof. reflexivity. Qed.

Example acme_matches :
  result_matches_org "Acme Corp" acme_result = Ok true
  /\ url_belongs_to_org "Acme Corp" (JStr "https://acme.com/press") = Ok true.
Proof. split; reflexivity. Qed.

(** ** Search client *)

Section SearchClient.
Variable self : DecarbonizationAnalyzer.
Variable org_name : string.

Lemma search_organization_cases (w : World) :
  search_organization self org_name w =
  let n := requests_made w in
  let get := search_request self org_name in
  let finish (r : reply) (tr : list event) (k : nat) :=
    (Ok (match r with
         | Answered resp =>
             if (status_code resp =? 200)%Z
             then match json_body resp with
                  | Some body =>
                      match web_results body with
                      | Ok v => v
                      | Raise _ => JArr []
                      end
                  | None => JArr []
                  end
             else JArr []
         | Failed => JArr []
         end),
     {| network := network w; requests_made := k; environ := environ w;
        trace := tr |}) in
  if rate_limited w
  then finish (network w (S n))
              (((((trace w ++ [get]) ++ [EvSleep 5]) ++ [get]) ++ [EvSleep 1])%list)
              (S (S n))
  else finish (network w n) (((trace w ++ [get]) ++ [EvSleep 1])%list) (S n).
Proof.
  unfold search_organization, try_finally, try_except, bind, ret, lift,
    requests_get_search, request, sleep, emit, rate_limited, response_json,
    search_request.
  cbn.
  destruct (network w (requests_made w)) as [r1|] eqn:E1; cbn; [|reflexivity].
  destruct (status_code r1 =? 429)%Z eqn:E429; cbn.
  - destruct (network w (S (requests_made w))) as [r2|] eqn:E2; cbn;
      [|reflexivity].
    destruct (status_code r2 =? 200)%Z; cbn; [|reflexivity].
    destruct (json_body r2) as [body|]; cbn; [|reflexivity].
    destruct (web_results body); reflexivity.
  - destruct (status_code r1 =? 200)%Z; cbn; [|reflexivity].
    destruct (json_body r1) as [body|]; cbn; [|reflexivity].
    destruct (web_results body); reflexivity.
Qed.

End SearchClient.

(** C5. Whatever the network does, [search_organization] returns a value
    and raises nothing; when the request fails at the transport level, or
    the final response has a status other than 200, or its body does not
    decode as JSON, the value returned is the empty list. *)
Theorem search_organization_absorbs_errors
    (self : DecarbonizationAnalyzer) (org_name : string) (w : World) :
  (exists v, fst (search_organization self org_name w) = Ok v)
  /\ (search_failed w ->
      fst (search_organization self org_name w) = Ok (JArr [])).
Proof.
  rewrite search_organization_cases. cbv zeta.
  unfold search_failed, final_reply, rate_limited.
  destruct (network w (requests_made w)) as [r1|] eqn:E1.
  - destruct (status_code r1 =? 429)%Z eqn:E429.
    + split; [eexists; reflexivity|].
      cbn [fst]. destruct (network w (S (requests_made w))) as [r2|];
        [|reflexivity].
      intros [Hs|Hb].
      * apply Z.eqb_neq in Hs. rewrite Hs. reflexivity.
      * rewrite Hb. destruct (status_code r2 =? 200)%Z; reflexivity.
    + split; [eexists; reflexivity|].
      cbn [fst]. intros [Hs|Hb].
      * apply Z.eqb_neq in Hs. rewrite Hs. reflexivity.
      * rewrite Hb. destruct (status_code r1 =? 200)%Z; reflexivity.
  - split; [eexists; reflexivity|]. reflexivity.
Qed.

Lemma search_organization_absorbs_errors_witness :
  search_failed (world_of [reply_429; reply_429] no_env)
  /\ fst (search_organization analyzer0 "Acme Corp"
            (world_of [reply_429; reply_429] no_env)) = Ok (JArr []).
Proof.
  assert (Hf : search_failed (world_of [reply_429; reply_429] no_env)).
  { left. cbn. discriminate. }
  split; [exact Hf|].
  exact (proj2 (search_organization_absorbs_errors analyzer0 "Acme Corp"
                  (world_of [reply_429; reply_429] no_env)) Hf).
Defined.

(** C6. [search_organization] sends one request; when, and only when, that
    request is answered with status 429 it sleeps 5, sends the request
    once more and nothing further; and when the first answer is 429 and
    the second is 200 with a body that holds one item under web.results,
    whatever else the body holds, that item alone is returned. *)
Theorem search_organization_retries_once
    (self : DecarbonizationAnalyzer) (org_name : string) (w : World) :
  let get := search_request self org_name in
  let w' := snd (search_organization self org_name w) in
  (rate_limited w = true ->
     trace w' = (trace w ++ [get; EvSleep 5; get; EvSleep 1])%list
     /\ requests_made w' = S (S (requests_made w)))
  /\ (rate_limited w = false ->
     trace w' = (trace w ++ [get; EvSleep 1])%list
     /\ requests_made w' = S (requests_made w))
  /\ (forall r1 r2 body web item,
        network w (requests_made w) = Answered r1 ->
        status_code r1 = 429 ->
        network w (S (requests_made w)) = Answered r2 ->
        status_code r2 = 200 ->
        json_body r2 = Some (JObj body) ->
        dict_lookup "web" body = Some (JObj web) ->
        dict_lookup "results" web = Some (JArr [item]) ->
        fst (search_organization self org_name w) = Ok (JArr [item])).
Proof.
  cbv zeta. rewrite search_organization_cases. cbv zeta.
  split; [|split].
  - intros R. rewrite R. cbn. rewrite <- !app_assoc. auto.
  - intros R. rewrite R. cbn. rewrite <- !app_assoc. auto.
  - intros r1 r2 body web item E1 S1 E2 S2 B2 Hweb Hres.
    unfold rate_limited. rewrite E1, S1. cbn [Z.eqb Pos.eqb fst].
    rewrite E2, S2, B2. cbn [Z.eqb Pos.eqb].
    unfold web_results, py_get, dict_get. cbn [rbind].
    rewrite Hweb. cbn [rbind]. rewrite Hres. reflexivity.
Qed.

Lemma search_organization_retries_once_witness :
  rate_limited (world_of [reply_429; reply_200 acme_full_body] no_env) = true
  /\ trace (snd (search_organization analyzer0 "Acme Corp"
                   (world_of [reply_429; reply_200 acme_full_body] no_env)))
     = [ search_request analyzer0 "Acme Corp"; EvSleep 5;
         search_request analyzer0 "Acme Corp"; EvSleep 1 ]
  /\ requests_made (snd (search_organization analyzer0 "Acme Corp"
                           (world_of [reply_429; reply_200 acme_full_body]
                                     no_env)))
     = 2%nat
  /\ fst (search_organization analyzer0 "Acme Corp"
            (world_of [reply_429; reply_200 acme_full_body] no_env))
     = Ok (JArr [acme_result])
  /\ fst (search_organization analyzer0 "Acme Corp"
            (world_of [reply_429; reply_200 acme_body] no_env))
     = Ok (JArr [acme_result])
  /\ rate_limited (world_of [reply_200 acme_body] no_env) = false
  /\ trace (snd (search_organization analyzer0 "Acme Corp"
                   (world_of [reply_200 acme_body] no_env)))
     = [ search_request analyzer0 "Acme Corp"; EvSleep 1 ].
Proof.
  pose proof (search_organization_retries_once analyzer0 "Acme Corp"
                (world_of [reply_429; reply_200 acme_full_body] no_env)) as T.
  pose proof (search_organization_retries_once analyzer0 "Acme Corp"
                (world_of [reply_429; reply_200 acme_body] no_env)) as V.
  pose proof (search_organization_retries_once analyzer0 "Acme Corp"
                (world_of [reply_200 acme_body] no_env)) as U.
  cbv zeta in T, U, V.
  destruct T as (T1 & _ & T3). destruct U as (_ & U2 & _).
  destruct V as (_ & _ & V3).
  split; [reflexivity|].
  split; [exact (proj1 (T1 eq_refl))|].
  split; [exact (proj2 (T1 eq_refl))|].
  split; [eapply T3; reflexivity|].
  split; [eapply V3; reflexivity|].
  split; [reflexivity|]. exact (proj1 (U2 eq_refl)).
Defined.

(** C10. When the final response has status 200 and its body decodes to
    an object whose "web" entry is an object with a "results" entry, the
    value of that entry is returned as it is, whatever it holds: nothing is
    cut to five items and no item is inspected. *)
Theorem search_organization_passes_results_through
    (self : DecarbonizationAnalyzer) (org_name : string) (w : World)
    (r : Response) (body web : dict) (results : json) :
  final_reply w = Answered r ->
  status_code r = 200 ->
  json_body r = Some (JObj body) ->
  dict_lookup "web" body = Some (JObj web) ->
  dict_lookup "results" web = Some results ->
  fst (search_organization self org_name w) = Ok results.
Proof.
  intros F S200 B Hweb Hres.
  rewrite search_organization_cases. cbv zeta.
  unfold final_reply in F. unfold rate_limited.
  assert (W : web_results (JObj body) = Ok results).
  { unfold web_results, py_get, dict_get. cbn. rewrite Hweb. cbn.
    rewrite Hres. reflexivity. }
  destruct (network w (requests_made w)) as [r1|]; [|discriminate].
  destruct (status_code r1 =? 429)%Z.
  - cbn [fst]. rewrite F, S200, B, W. reflexivity.
  - cbn [fst]. injection F as ->. rewrite S200, B, W. reflexivity.
Qed.

Lemma search_organization_passes_results_through_witness :
  fst (search_organization analyzer0 "Acme Corp"
         (world_of [reply_200 (JObj [("web", JObj [("results", six_results)])])]
                   no_env))
  = Ok six_results.
Proof.
  eapply (search_organization_passes_results_through analyzer0 "Acme Corp"
            (world_of [reply_200 (JObj [("web", JObj [("results", six_results)])])]
                      no_env));
    reflexivity.
Defined.

(** ** Dicts and loops *)

Lemma dict_lookup_set_same (k : string) (v : json) (d : dict) :
  dict_lookup k (dict_set k v d) = Some v.
Proof.
  induction d as [|[k' v'] d IH]; cbn.
  - rewrite String.eqb_refl. reflexivity.
  - destruct (String.eqb k k') eqn:E; cbn.
    + rewrite String.eqb_refl. reflexivity.
    + rewrite E. exact IH.
Qed.

Lemma dict_lookup_set_other (k k' : string) (v : json) (d : dict) :
  k <> k' -> dict_lookup k (dict_set k' v d) = dict_lookup k d.
Proof.
  intros Hne. induction d as [|[k0 v0] d IH]; cbn.
  - apply String.eqb_neq in Hne. rewrite Hne. reflexivity.
  - destruct (String.eqb k' k0) eqn:E; cbn.
    + apply String.eqb_eq in E. subst k0.
      apply String.eqb_neq in Hne. rewrite Hne. reflexivity.
    + destruct (String.eqb k k0); [reflexivity | exact IH].
Qed.

Lemma first_hit_some {A} (step : json -> exc (option A)) (rs : list json) (a : A) :
  first_hit step rs = Ok (Some a) <->
  exists pre r post,
    rs = (pre ++ r :: post)%list
    /\ Forall (fun x => step x = Ok None) pre
    /\ step r = Ok (Some a).
Proof.
  split.
  - induction rs as [|r rs IH]; cbn; [discriminate|].
    destruct (step r) as [[a'|]|e] eqn:E; try discriminate.
    + intros [= ->]. exists [], r, rs. repeat split; auto.
    + intros Hrest. destruct (IH Hrest) as (pre & r0 & post & -> & Hpre & Hr0).
      exists (r :: pre), r0, post. repeat split; auto.
  - intros (pre & r & post & -> & Hpre & Hr).
    induction Hpre as [|x pre Hx _ IH]; cbn.
    + rewrite Hr. reflexivity.
    + rewrite Hx. exact IH.
Qed.

Section FallbackFacts.
Context `{PyLib}.

(** A fallback leaves the answer alone or sets its own key to what its
    loop found. *)
Lemma fallback_cases (key : string) (step : json -> exc (option json))
    (rs : list json) (p p' : dict) :
  fallback key step rs p = Ok p' ->
  p' = p
  \/ (truthy (dict_get key JNull p) = false
      /\ exists v, first_hit step rs = Ok (Some v) /\ p' = dict_set key v p).
Proof.
  unfold fallback.
  destruct (truthy (dict_get key JNull p)) eqn:T.
  - intros [= <-]. now left.
  - destruct (first_hit step rs) as [[v|]|e] eqn:F; cbn; try discriminate.
    + intros [= <-]. right. split; [reflexivity|]. now exists v.
    + intros [= <-]. now left.
Qed.

Lemma fallback_other_key (key k : string) (step : json -> exc (option json))
    (rs : list json) (p p' : dict) :
  fallback key step rs p = Ok p' -> k <> key ->
  dict_lookup k p' = dict_lookup k p.
Proof.
  intros F Hne. destruct (fallback_cases _ _ _ _ _ F) as [->|(_ & v & _ & ->)].
  - reflexivity.
  - now apply dict_lookup_set_other.
Qed.

(** The three stages of [fallbacks], one after the other. *)
Lemma fallbacks_stages (org_name : string) (rs : list json) (p p' : dict) :
  fallbacks org_name rs p = Ok p' ->
  exists p1 p2,
    fallback "source_url" (source_url_step org_name) rs p = Ok p1
    /\ fallback "target_date" (target_date_step org_name) rs p1 = Ok p2
    /\ fallback "description" (description_step org_name) rs p2 = Ok p'.
Proof.
  unfold fallbacks.
  destruct (fallback "source_url" _ rs p) as [p1|] eqn:F1; cbn; [|discriminate].
  destruct (fallback "target_date" _ rs p1) as [p2|] eqn:F2; cbn; [|discriminate].
  intros F3. now exists p1, p2.
Qed.

Lemma both_checks_true (org_name : string) (r : json) :
  both_checks org_name r = Ok true ->
  result_matches_org org_name r = Ok true
  /\ exists url, py_get r "url" (JStr "") = Ok url
                 /\ url_belongs_to_org org_name url = Ok true.
Proof.
  unfold both_checks.
  destruct (result_matches_org org_name r) as [[|]|] eqn:M; cbn;
    try discriminate.
  destruct (py_get r "url" (JStr "")) as [url|] eqn:U; cbn; try discriminate.
  intros B. split; [reflexivity|]. now exists url.
Qed.

Lemma source_url_step_some (org_name : string) (r url : json) :
  source_url_step org_name r = Ok (Some url) ->
  py_get r "url" (JStr "") = Ok url
  /\ truthy url = true
  /\ result_matches_org org_name r = Ok true
  /\ url_belongs_to_org org_name url = Ok true.
Proof.
  unfold source_url_step.
  destruct (py_get r "url" (JStr "")) as [u|] eqn:U; cbn; try discriminate.
  destruct (truthy u) eqn:T; try discriminate.
  destruct (result_matches_org org_name r) as [[|]|] eqn:M; cbn;
    try discriminate.
  destruct (url_belongs_to_org org_name u) as [[|]|] eqn:B; cbn;
    try discriminate.
  intros [= <-]. auto.
Qed.

Lemma description_step_some (org_name : string) (r v : json) :
  description_step org_name r = Ok (Some v) ->
  exists desc,
    py_get r "description" (JStr "") = Ok (JStr desc)
    /\ mentions_goal (PyStr.lower desc) = true
    /\ both_checks org_name r = Ok true
    /\ v = JStr (PyStr.take 250 (PyStr.strip desc)).
Proof.
  unfold description_step.
  destruct (py_get r "description" (JStr "")) as [d|] eqn:D; cbn;
    try discriminate.
  destruct d as [| | | |desc| |]; try discriminate.
  destruct (mentions_goal (PyStr.lower desc)) eqn:G; try discriminate.
  destruct (both_checks org_name r) as [[|]|] eqn:B; cbn; try discriminate.
  intros [= <-]. now exists desc.
Qed.

End FallbackFacts.

Lemma take_length (n : nat) (s : string) : (String.length (PyStr.take n s) <= n)%nat.
Proof.
  revert s. induction n as [|n IH]; intros [|c s]; cbn; try lia.
  specialize (IH s). lia.
Qed.

(** ** The extractor returns on well-formed results *)

Section Returns.
Context `{PyLib}.

Lemma infer_returns (self : DecarbonizationAnalyzer) (prompt : string)
    (w : World) :
  exists parsed w1, infer self prompt w = (Ok parsed, w1).
Proof.
  unfold infer, try_except, bind, request, lift, ret.
  destruct (network w (requests_made w)) as [r|]; [|eauto].
  destruct (parse_inference r); eauto.
Qed.

Lemma add_entries_returns (rs : list json) : forall context,
  Forall well_formed_result rs -> exists c, add_entries context rs = Ok c.
Proof.
  induction rs as [|r rs IH]; intros context W; cbn; [eauto|].
  inversion W as [|? ? (d & ? & ? & ? & ? & -> & _) W']; subst.
  cbn. apply IH. exact W'.
Qed.

Lemma well_formed_checks (org_name : string) (r : json) :
  well_formed_result r ->
  (exists b, result_matches_org org_name r = Ok b)
  /\ (exists url b, py_get r "url" (JStr "") = Ok (JStr url)
                    /\ url_belongs_to_org org_name (JStr url) = Ok b)
  /\ (exists desc, py_get r "description" (JStr "") = Ok (JStr desc)).
Proof.
  intros (d & title & desc & url & host & -> & T & D & U & P).
  unfold result_matches_org, py_get. rewrite T, D, U. cbn.
  split; [eauto|]. split; [|eauto].
  exists url. unfold url_belongs_to_org, hostname_or_empty. rewrite P. cbn.
  eauto.
Qed.

Lemma well_formed_steps (org_name : string) (r : json) :
  well_formed_result r ->
  (exists o, source_url_step org_name r = Ok o)
  /\ (exists o, target_date_step org_name r = Ok o)
  /\ (exists o, description_step org_name r = Ok o).
Proof.
  intros W.
  destruct (well_formed_checks org_name r W)
    as ((m & M) & (url & b & U & B) & (desc & D)).
  unfold source_url_step, target_date_step, description_step, both_checks.
  rewrite M, U, D. cbn [rbind truthy]. rewrite ?U. cbn [rbind].
  rewrite B. cbn [rbind].
  destruct (negb (String.eqb url "")), m, b,
    (mentions_goal (PyStr.lower desc));
    cbn [rbind]; rewrite ?U, ?D; cbn [rbind]; rewrite ?B; cbn [rbind];
    repeat split; eauto.
Qed.

Lemma first_hit_returns {A} (step : json -> exc (option A)) (rs : list json) :
  Forall (fun r => exists o, step r = Ok o) rs ->
  exists o, first_hit step rs = Ok o.
Proof.
  induction 1 as [|r rs (o & E) _ IH]; cbn; [eauto|].
  rewrite E. destruct o; eauto.
Qed.

Lemma fallback_returns (key : string) (step : json -> exc (option json))
    (rs : list json) (p : dict) :
  Forall (fun r => exists o, step r = Ok o) rs ->
  exists p', fallback key step rs p = Ok p'.
Proof.
  intros W. unfold fallback.
  destruct (truthy (dict_get key JNull p)); [eauto|].
  destruct (first_hit_returns step rs W) as (o & ->). cbn. eauto.
Qed.

Lemma fallbacks_return (org_name : string) (rs : list json) (p : dict) :
  Forall well_formed_result rs -> exists p', fallbacks org_name rs p = Ok p'.
Proof.
  intros W. unfold fallbacks.
  destruct (fallback_returns "source_url" (source_url_step org_name) rs p)
    as (p1 & ->).
  { eapply Forall_impl; [|exact W]. intros r Wr.
    apply (well_formed_steps org_name r Wr). }
  cbn.
  destruct (fallback_returns "target_date" (target_date_step org_name) rs p1)
    as (p2 & ->).
  { eapply Forall_impl; [|exact W]. intros r Wr.
    apply (well_formed_steps org_name r Wr). }
  cbn. apply fallback_returns.
  eapply Forall_impl; [|exact W]. intros r Wr.
  apply (well_formed_steps org_name r Wr).
Qed.

Lemma analyze_search_results_returns (self : DecarbonizationAnalyzer)
    (org_name : string) (results : list json) (w : World) :
  Forall well_formed_result results ->
  exists rec w',
    analyze_search_results self org_name (JArr results) w = (Ok rec, w').
Proof.
  intros W. destruct results as [|r rs].
  { cbn. unfold ret. eauto. }
  unfold analyze_search_results. cbn [truthy negb py_iter].
  unfold bind, lift, ret, build_context.
  destruct (add_entries_returns (r :: rs)
              ("Search results for " ++ org_name ++ ":" ++ nl) W) as (c & ->).
  destruct (infer_returns self (build_prompt org_name c) w) as (p & w1 & ->).
  destruct (fallbacks_return org_name (r :: rs) p W) as (p' & ->).
  eauto.
Qed.

End Returns.

(** ** Goal extractor *)

(** C4. On an empty list of results [analyze_search_results] returns the
    record with has_goal "Not Found", no target date, no source URL and an
    empty description, and leaves the world as it was: no request is
    sent. *)
Theorem analyze_search_results_empty `{PyLib}
    (self : DecarbonizationAnalyzer) (org_name : string) (w : World) :
  analyze_search_results self org_name (JArr []) w
  = (Ok [ ("organization", JStr org_name);
          ("has_goal", JStr "Not Found");
          ("target_date", JNull);
          ("source_url", JNull);
          ("description", JStr "") ],
     w).
Proof. reflexivity. Qed.

(** C3. The fallback stage leaves has_goal as the inference step gave
    it; every record that [analyze_search_results] returns has the five
    keys, is built from the answer as it stands after inference and
    fallback, and has has_goal "Not Found" when that answer has no
    has_goal (and the answer's value when it has one); and on a list of
    well-formed results a record is returned. *)
Theorem analyze_search_results_has_goal `{PyLib}
    (self : DecarbonizationAnalyzer) (org_name : string)
    (results : list json) (w : World) :
  (forall p p', fallbacks org_name results p = Ok p' ->
                dict_lookup "has_goal" p' = dict_lookup "has_goal" p)
  /\ (forall rec w',
        analyze_search_results self org_name (JArr results) w = (Ok rec, w') ->
        dict_keys rec = five_keys
        /\ exists answer,
             ((results = [] /\ answer = [])
              \/ (exists context parsed w1,
                    build_context org_name results = Ok context
                    /\ infer self (build_prompt org_name context) w
                       = (Ok parsed, w1)
                    /\ fallbacks org_name results parsed = Ok answer))
             /\ rec = goal_record org_name answer
             /\ (dict_lookup "has_goal" answer = None ->
                 dict_lookup "has_goal" rec = Some (JStr "Not Found"))
             /\ (forall v, dict_lookup "has_goal" answer = Some v ->
                           dict_lookup "has_goal" rec = Some v))
  /\ (Forall well_formed_result results ->
      exists rec w',
        analyze_search_results self org_name (JArr results) w = (Ok rec, w')).
Proof.
  split; [|split].
  - intros p p' F.
    destruct (fallbacks_stages _ _ _ _ F) as (p1 & p2 & F1 & F2 & F3).
    rewrite (fallback_other_key _ "has_goal" _ _ _ _ F3) by discriminate.
    rewrite (fallback_other_key _ "has_goal" _ _ _ _ F2) by discriminate.
    apply (fallback_other_key _ "has_goal" _ _ _ _ F1). discriminate.
  - intros rec w' A.
    assert (G : forall answer,
               rec = goal_record org_name answer ->
               dict_keys rec = five_keys
               /\ (dict_lookup "has_goal" answer = None ->
                   dict_lookup "has_goal" rec = Some (JStr "Not Found"))
               /\ (forall v, dict_lookup "has_goal" answer = Some v ->
                             dict_lookup "has_goal" rec = Some v)).
    { intros answer ->. split; [reflexivity|]. unfold goal_record, dict_get.
      cbn. split.
      - intros ->. reflexivity.
      - intros v ->. reflexivity. }
    destruct results as [|r rs].
    + cbn in A. injection A as <- <-.
      destruct (G [] eq_refl) as (K & D1 & D2).
      split; [exact K|]. exists []. repeat split; auto.
    + unfold analyze_search_results in A. cbn [truthy negb py_iter] in A.
      unfold bind, lift, ret in A.
      destruct (build_context org_name (r :: rs)) as [context|] eqn:C;
        [|discriminate].
      destruct (infer self (build_prompt org_name context) w)
        as [[parsed|e] w1] eqn:I; [|discriminate].
      destruct (fallbacks org_name (r :: rs) parsed) as [answer|] eqn:F;
        [|discriminate].
      injection A as <- <-.
      destruct (G answer eq_refl) as (K & D1 & D2).
      split; [exact K|]. exists answer. repeat split; auto.
      right. exists context, parsed, w1. auto.
  - apply analyze_search_results_returns.
Qed.

Lemma analyze_search_results_has_goal_witness :
  fst (analyze_search_results analyzer0 "Acme Corp" (JArr [acme_result])
         (world_of [Failed] no_env))
  = Ok (goal_record "Acme Corp"
          [("source_url", JStr "https://acme.com/press");
           ("target_date", JStr "2035");
           ("description", JStr "Acme targets net zero by 2035")])
  /\ dict_keys (goal_record "Acme Corp"
                  [("source_url", JStr "https://acme.com/press");
                   ("target_date", JStr "2035");
                   ("description", JStr "Acme targets net zero by 2035")])
     = five_keys
  /\ Forall well_formed_result [acme_result]
  /\ (exists rec w',
        analyze_search_results analyzer0 "Acme Corp" (JArr [acme_result])
          (world_of [Failed] no_env) = (Ok rec, w'))
  /\ dict_lookup "has_goal"
       [("has_goal", JStr "No");
        ("source_url", JStr "https://acme.com/press");
        ("target_date", JStr "2035");
        ("description", JStr "Acme targets net zero by 2035")]
     = dict_lookup "has_goal" [("has_goal", JStr "No")].
Proof.
  pose proof (analyze_search_results_has_goal analyzer0 "Acme Corp"
                [acme_result] (world_of [Failed] no_env)) as (K & T & R).
  refine ((fun A B => conj (proj1 A) (conj (proj1 (proj2 A))
            (conj (proj1 (proj2 (proj2 A))) (conj (proj2 (proj2 (proj2 A))) B))))
          _ (K [("has_goal", JStr "No")] _ eq_refl)).
  assert (W : Forall well_formed_result [acme_result]).
  { repeat constructor.
    exists [ ("title", JStr "Acme decarbonization");
             ("description", JStr "Acme targets net zero by 2035");
             ("url", JStr "https://acme.com/press") ],
      "Acme decarbonization", "Acme targets net zero by 2035",
      "https://acme.com/press", (Some "acme.com").
    repeat split; reflexivity. }
  split; [reflexivity|]. split; [|split; [exact W | exact (R W)]].
  exact (proj1 (T (goal_record "Acme Corp"
                     [("source_url", JStr "https://acme.com/press");
                      ("target_date", JStr "2035");
                      ("description", JStr "Acme targets net zero by 2035")])
                  (snd (analyze_search_results analyzer0 "Acme Corp"
                          (JArr [acme_result]) (world_of [Failed] no_env)))
                  eq_refl)).
Defined.

Example analyze_acme_yes :
  fst (analyze_search_results analyzer0 "Acme Corp" (JArr [acme_result])
         (world_of [yes_reply] no_env))
  = Ok [ ("organization", JStr "Acme Corp");
         ("has_goal", JStr "Yes");
         ("target_date", JStr "2035");
         ("source_url", JStr "https://acme.com/press");
         ("description", JStr "Acme targets net zero by 2035") ].
Proof. reflexivity. Qed.

(** C8. When the fallback stage changes source_url, the new value is the
    URL of one of the results, and that result passes the text check and
    its URL the hostname check; when it changes description, the new
    value is the description of one of the results, stripped and cut to
    250 characters, and that description mentions "decarbon" or
    "net zero" in any case and the result passes both checks. *)
Theorem fallbacks_take_official_results `{PyLib}
    (org_name : string) (results : list json) (p p' : dict) :
  fallbacks org_name results p = Ok p' ->
  (dict_lookup "source_url" p' <> dict_lookup "source_url" p ->
   exists r url,
     In r results
     /\ py_get r "url" (JStr "") = Ok url
     /\ result_matches_org org_name r = Ok true
     /\ url_belongs_to_org org_name url = Ok true
     /\ dict_lookup "source_url" p' = Some url)
  /\ (dict_lookup "description" p' <> dict_lookup "description" p ->
      exists r desc url,
        In r results
        /\ py_get r "description" (JStr "") = Ok (JStr desc)
        /\ (PyStr.contains "decarbon" (PyStr.lower desc) = true
            \/ PyStr.contains "net zero" (PyStr.lower desc) = true)
        /\ result_matches_org org_name r = Ok true
        /\ py_get r "url" (JStr "") = Ok url
        /\ url_belongs_to_org org_name url = Ok true
        /\ dict_lookup "description" p'
           = Some (JStr (PyStr.take 250 (PyStr.strip desc)))
        /\ (String.length (PyStr.take 250 (PyStr.strip desc)) <= 250)%nat).
Proof.
  intros F.
  destruct (fallbacks_stages _ _ _ _ F) as (p1 & p2 & F1 & F2 & F3).
  split.
  - rewrite (fallback_other_key _ "source_url" _ _ _ _ F3) by discriminate.
    rewrite (fallback_other_key _ "source_url" _ _ _ _ F2) by discriminate.
    intros Hne.
    destruct (fallback_cases _ _ _ _ _ F1) as [->|(_ & v & Hv & ->)];
      [contradiction|].
    apply first_hit_some in Hv.
    destruct Hv as (pre & r & post & -> & _ & Hr).
    apply source_url_step_some in Hr. destruct Hr as (U & _ & M & B).
    exists r, v. repeat split; auto.
    + apply in_or_app. right. now left.
    + apply dict_lookup_set_same.
  - rewrite <- (fallback_other_key _ "description" _ _ _ _ F1) by discriminate.
    rewrite <- (fallback_other_key _ "description" _ _ _ _ F2) by discriminate.
    intros Hne.
    destruct (fallback_cases _ _ _ _ _ F3) as [->|(_ & v & Hv & ->)];
      [contradiction|].
    apply first_hit_some in Hv.
    destruct Hv as (pre & r & post & -> & _ & Hr).
    apply description_step_some in Hr.
    destruct Hr as (desc & D & G & B & ->).
    apply both_checks_true in B. destruct B as (M & url & U & B).
    exists r, desc, url. repeat split; auto.
    + apply in_or_app. right. now left.
    + unfold mentions_goal in G. now apply orb_true_iff in G.
    + apply dict_lookup_set_same.
    + apply take_length.
Qed.

Lemma fallbacks_take_official_results_witness :
  (exists r url,
     In r [other_result; acme_result]
     /\ py_get r "url" (JStr "") = Ok url
     /\ result_matches_org "Acme Corp" r = Ok true
     /\ url_belongs_to_org "Acme Corp" url = Ok true
     /\ dict_lookup "source_url"
          [("has_goal", JStr "Yes");
           ("source_url", JStr "https://acme.com/press");
           ("target_date", JStr "2035");
           ("description", JStr "Acme targets net zero by 2035")]
        = Some url)
  /\ (exists r desc url,
        In r [other_result; acme_result]
        /\ py_get r "description" (JStr "") = Ok (JStr desc)
        /\ (PyStr.contains "decarbon" (PyStr.lower desc) = true
            \/ PyStr.contains "net zero" (PyStr.lower desc) = true)
        /\ result_matches_org "Acme Corp" r = Ok true
        /\ py_get r "url" (JStr "") = Ok url
        /\ url_belongs_to_org "Acme Corp" url = Ok true
        /\ dict_lookup "description"
             [("has_goal", JStr "Yes");
              ("source_url", JStr "https://acme.com/press");
              ("target_date", JStr "2035");
              ("description", JStr "Acme targets net zero by 2035")]
           = Some (JStr (PyStr.take 250 (PyStr.strip desc)))
        /\ (String.length (PyStr.take 250 (PyStr.strip desc)) <= 250)%nat).
Proof.
  pose proof (fallbacks_take_official_results "Acme Corp"
                [other_result; acme_result]
                [("has_goal", JStr "Yes")]
                [("has_goal", JStr "Yes");
                 ("source_url", JStr "https://acme.com/press");
                 ("target_date", JStr "2035");
                 ("description", JStr "Acme targets net zero by 2035")]
                eq_refl) as (S & D).
  split.
  - apply S. cbn. discriminate.
  - apply D. cbn. discriminate.
Defined.

(** ** The year pattern *)

Lemma ends_in_word_cons (before : bool) (c : ascii) (pre : string) :
  ends_in_word before (String c pre) = ends_in_word (is_word c) pre.
Proof. reflexivity. Qed.

Lemma year_here_token (before : bool) (s y : string) :
  year_here before s = Some y <-> token_at before s EmptyString y.
Proof.
  unfold year_here, token_at, is_year. split.
  - destruct s as [|c1 [|c2 [|d1 [|d2 rest]]]]; try discriminate.
    destruct (negb before) eqn:B; cbn [andb]; [|discriminate].
    destruct (Ascii.eqb c1 "2") eqn:E1; cbn [andb]; [|discriminate].
    destruct (Ascii.eqb c2 "0") eqn:E2; cbn [andb]; [|discriminate].
    destruct (PyStr.is_digit d1) eqn:D1; cbn [andb]; [|discriminate].
    destruct (PyStr.is_digit d2) eqn:D2; cbn [andb]; [|discriminate].
    destruct (negb (starts_with_word rest)) eqn:W; [|discriminate].
    intros [= <-].
    apply Ascii.eqb_eq in E1, E2. subst c1 c2.
    apply negb_true_iff in B, W.
    split; [now exists d1, d2|].
    exists rest. cbn. auto.
  - intros ((d1 & d2 & -> & D1 & D2) & post & -> & B & W).
    cbn in B. cbn. rewrite B, D1, D2, W. reflexivity.
Qed.

(** What [search_year] returns is a token, and no token stands before it. *)
Lemma search_year_sound (s : string) : forall (before : bool) (y : string),
  search_year before s = Some y ->
  exists pre,
    token_at before s pre y
    /\ forall pre' y', token_at before s pre' y' ->
                       (String.length pre <= String.length pre')%nat.
Proof.
  induction s as [|c s IH]; intros before y.
  - cbn. discriminate.
  - cbn [search_year].
    destruct (year_here before (String c s)) as [y0|] eqn:Y.
    + intros [= <-]. exists EmptyString. split.
      * now apply year_here_token.
      * intros pre' y' _. cbn. lia.
    + intros S. destruct (IH _ _ S) as (pre & (Hy & post & E & B & W) & Hmin).
      exists (String c pre). split.
      * split; [exact Hy|]. exists post. cbn. rewrite E. auto.
      * intros pre' y' T. destruct pre' as [|c' pre'].
        -- apply year_here_token in T. congruence.
        -- destruct T as (Hy' & post' & E' & B' & W').
           cbn in E'. injection E' as <- E'.
           cbn. apply le_n_S. apply (Hmin pre' y').
           split; [exact Hy'|]. now exists post'.
Qed.

(** Where there is a token, [search_year] finds one. *)
Lemma search_year_complete (s : string) : forall (before : bool) (pre y : string),
  token_at before s pre y -> exists y', search_year before s = Some y'.
Proof.
  induction s as [|c s IH]; intros before pre y T.
  - destruct T as ((d1 & d2 & -> & _) & post & E & _).
    destruct pre; cbn in E; discriminate.
  - cbn [search_year].
    destruct (year_here before (String c s)) as [y0|] eqn:Y.
    + now exists y0.
    + destruct pre as [|c' pre].
      * apply year_here_token in T. congruence.
      * destruct T as (Hy & post & E & B & W).
        cbn in E. injection E as <- E.
        apply (IH (is_word c) pre y).
        split; [exact Hy|]. now exists post.
Qed.

Lemma append_same_length (a a' b b' : string) :
  a ++ b = a' ++ b' -> String.length a = String.length a' ->
  a = a' /\ b = b'.
Proof.
  revert a'. induction a as [|c a IH]; intros [|c' a']; cbn;
    try discriminate; auto.
  intros [= -> E] [= L]. destruct (IH _ E L) as [-> ->]. auto.
Qed.

(** [re.search] returns the first year token of the description, and
    nothing when there is none. *)
Lemma re_search_year_first (desc y : string) :
  re_search_year desc = Some y <-> first_year_token desc y.
Proof.
  unfold re_search_year, first_year_token, year_token_at. split.
  - apply search_year_sound.
  - intros (pre & T & Hmin).
    destruct (search_year_complete _ _ _ _ T) as (y' & S).
    rewrite S. f_equal.
    destruct (search_year_sound _ _ _ S) as (pre' & T' & Hmin').
    pose proof (Hmin _ _ T') as L1. pose proof (Hmin' _ _ T) as L2.
    destruct T as ((d1 & d2 & -> & _) & post & E & _).
    destruct T' as ((e1 & e2 & -> & _) & post' & E' & _).
    rewrite E in E'.
    destruct (append_same_length _ _ _ _ E' ltac:(lia)) as [_ E2].
    cbn in E2. now injection E2 as <- <-.
Qed.

Lemma re_search_year_none (desc : string) :
  re_search_year desc = None <-> forall pre y, ~ year_token_at desc pre y.
Proof.
  unfold re_search_year, year_token_at. split.
  - intros N pre y T.
    destruct (search_year_complete _ _ _ _ T) as (y' & S). congruence.
  - intros N. destruct (search_year false desc) as [y|] eqn:S; [|reflexivity].
    destruct (search_year_sound _ _ _ S) as (pre & T & _).
    now destruct (N pre y).
Qed.

Section TargetDate.
Context `{PyLib}.

(** When the text check returns, title and description were strings. *)
Lemma result_matches_org_strings (org_name : string) (r : json) (b : bool) :
  result_matches_org org_name r = Ok b ->
  exists title desc,
    py_get r "title" (JStr "") = Ok (JStr title)
    /\ py_get r "description" (JStr "") = Ok (JStr desc).
Proof.
  unfold result_matches_org.
  destruct (py_get r "title" (JStr "")) as [t|] eqn:T; cbn; [|discriminate].
  destruct t as [| | | |title| |]; cbn; try discriminate.
  destruct (py_get r "description" (JStr "")) as [d|] eqn:D; cbn;
    [|discriminate].
  destruct d as [| | | |desc| |]; cbn; try discriminate.
  intros _. now exists title, desc.
Qed.

Lemma both_checks_passes (org_name : string) (r : json) :
  both_checks org_name r = Ok true <-> passes_both_checks org_name r.
Proof.
  split; [apply both_checks_true|].
  intros (M & url & U & B). unfold both_checks. rewrite M. cbn.
  rewrite U. cbn. exact B.
Qed.

Lemma target_date_step_skips (org_name : string) (x : json) :
  checks_evaluate org_name x ->
  ~ (passes_both_checks org_name x /\ has_year_token x) ->
  target_date_step org_name x = Ok None.
Proof.
  intros [b B] N. unfold target_date_step. rewrite B. cbn.
  destruct b; [|reflexivity].
  pose proof (proj1 (both_checks_passes _ _) B) as P.
  destruct (result_matches_org_strings _ _ _ (proj1 P)) as (t & d & _ & D).
  rewrite D. cbn.
  destruct (re_search_year d) as [y|] eqn:Y; [|reflexivity].
  exfalso. apply N. split; [exact P|].
  apply re_search_year_first in Y. destruct Y as (pre & T & _).
  now exists d, pre, y.
Qed.

Lemma target_date_step_takes (org_name : string) (r : json) (desc y : string) :
  passes_both_checks org_name r ->
  py_get r "description" (JStr "") = Ok (JStr desc) ->
  first_year_token desc y ->
  target_date_step org_name r = Ok (Some (JStr y)).
Proof.
  intros P D F. unfold target_date_step.
  rewrite (proj2 (both_checks_passes _ _) P). cbn. rewrite D. cbn.
  now rewrite (proj2 (re_search_year_first _ _) F).
Qed.

Lemma target_date_step_none (org_name : string) (x : json) :
  target_date_step org_name x = Ok None ->
  ~ (passes_both_checks org_name x /\ has_year_token x).
Proof.
  intros S (P & desc & pre & y & D & T).
  unfold target_date_step in S.
  rewrite (proj2 (both_checks_passes _ _) P) in S. cbn in S.
  rewrite D in S. cbn in S.
  destruct (re_search_year desc) as [y'|] eqn:Y; [discriminate|].
  exact (proj1 (re_search_year_none desc) Y pre y T).
Qed.

Lemma target_date_step_some (org_name : string) (r v : json) :
  target_date_step org_name r = Ok (Some v) ->
  passes_both_checks org_name r
  /\ exists desc y,
       py_get r "description" (JStr "") = Ok (JStr desc)
       /\ first_year_token desc y
       /\ v = JStr y.
Proof.
  unfold target_date_step.
  destruct (both_checks org_name r) as [[|]|] eqn:B; cbn; try discriminate.
  destruct (py_get r "description" (JStr "")) as [d|] eqn:D; cbn;
    try discriminate.
  destruct d as [| | | |desc| |]; try discriminate.
  destruct (re_search_year desc) as [y|] eqn:Y; try discriminate.
  intros [= <-]. split; [now apply both_checks_passes|].
  exists desc, y. repeat split; auto. now apply re_search_year_first.
Qed.

End TargetDate.

(** C7. When the answer has no target_date (or an empty one): whatever
    the target_date fallback stores is the first year token (four digits
    starting with 20, no word character on either side) of the
    description of the first result, in list order, that passes both
    checks and whose description holds such a token; and when there is
    such a result, the checks having returned on the results before it,
    the fallback does store that token. *)
Theorem target_date_fallback_first_year `{PyLib}
    (org_name : string) (results : list json) (p : dict) :
  truthy (dict_get "target_date" JNull p) = false ->
  (forall p',
     fallback "target_date" (target_date_step org_name) results p = Ok p' ->
     dict_lookup "target_date" p' <> dict_lookup "target_date" p ->
     exists pre r post desc y,
       results = (pre ++ r :: post)%list
       /\ Forall (fun x => ~ (passes_both_checks org_name x
                              /\ has_year_token x)) pre
       /\ passes_both_checks org_name r
       /\ py_get r "description" (JStr "") = Ok (JStr desc)
       /\ first_year_token desc y
       /\ dict_lookup "target_date" p' = Some (JStr y))
  /\ (forall pre r post desc y,
        results = (pre ++ r :: post)%list ->
        Forall (checks_evaluate org_name) pre ->
        Forall (fun x => ~ (passes_both_checks org_name x
                            /\ has_year_token x)) pre ->
        passes_both_checks org_name r ->
        py_get r "description" (JStr "") = Ok (JStr desc) ->
        first_year_token desc y ->
        fallback "target_date" (target_date_step org_name) results p
        = Ok (dict_set "target_date" (JStr y) p)
        /\ dict_lookup "target_date" (dict_set "target_date" (JStr y) p)
           = Some (JStr y)).
Proof.
  intros T. split.
  - intros p' F Hne.
    destruct (fallback_cases _ _ _ _ _ F) as [->|(_ & v & Hv & ->)];
      [contradiction|].
    apply first_hit_some in Hv.
    destruct Hv as (pre & r & post & -> & Hpre & Hr).
    apply target_date_step_some in Hr.
    destruct Hr as (P & desc & y & D & Y & ->).
    exists pre, r, post, desc, y. repeat split; auto.
    + eapply Forall_impl; [|exact Hpre].
      intros x Hx. now apply target_date_step_none.
    + apply P.
    + apply P.
    + apply dict_lookup_set_same.
  - intros pre r post desc y -> E N P D F.
    split; [|apply dict_lookup_set_same].
    unfold fallback. rewrite T.
    assert (Hit : first_hit (target_date_step org_name) (pre ++ r :: post)%list
                  = Ok (Some (JStr y))).
    { apply first_hit_some. exists pre, r, post. split; [reflexivity|]. split.
      - rewrite Forall_forall in *. intros x Hx.
        apply target_date_step_skips; auto.
      - now apply target_date_step_takes with desc. }
    rewrite Hit. reflexivity.
Qed.

Lemma target_date_fallback_first_year_witness :
  fallback "target_date" (target_date_step "Acme Corp")
    [acme_no_year; other_result; acme_result; other_result]
    [("has_goal", JStr "Yes"); ("target_date", JStr "")]
  = Ok [("has_goal", JStr "Yes"); ("target_date", JStr "2035")]
  /\ exists pre r post desc y,
       [acme_no_year; other_result; acme_result; other_result]
       = (pre ++ r :: post)%list
       /\ Forall (fun x => ~ (passes_both_checks "Acme Corp" x
                              /\ has_year_token x)) pre
       /\ passes_both_checks "Acme Corp" r
       /\ py_get r "description" (JStr "") = Ok (JStr desc)
       /\ first_year_token desc y
       /\ dict_lookup "target_date"
            [("has_goal", JStr "Yes"); ("target_date", JStr "2035")]
          = Some (JStr y).
Proof.
  pose proof (target_date_fallback_first_year "Acme Corp"
                [acme_no_year; other_result; acme_result; other_result]
                [("has_goal", JStr "Yes"); ("target_date", JStr "")]
                eq_refl) as (S & C).
  split.
  - refine (proj1 (C [acme_no_year; other_result] acme_result [other_result]
                     "Acme targets net zero by 2035" "2035"
                     eq_refl _ _ _ eq_refl _)).
    + repeat constructor; eexists; reflexivity.
    + repeat constructor.
      * intros [_ (d & pre & y & E & T)]. injection E as <-.
        revert T. apply re_search_year_none. reflexivity.
      * intros [[M _] _]. discriminate M.
    + split; [reflexivity|]. eexists. split; reflexivity.
    + apply re_search_year_first. reflexivity.
  - apply S; [reflexivity|]. cbn. discriminate.
Defined.

(** ** Text matcher *)

Lemma filter_none {A} (f : A -> bool) (l : list A) :
  (forall x, In x l -> f x = false) -> List.filter f l = [].
Proof.
  induction l as [|a l IH]; cbn; intros Hf; [reflexivity|].
  rewrite (Hf a) by now left. apply IH. intros x Hx. apply Hf. now right.
Qed.

Lemma is_common_word_spec (token : string) :
  is_common_word token = true <-> In token common_words.
Proof.
  unfold is_common_word. rewrite existsb_exists. split.
  - intros (x & Hx & E). apply String.eqb_eq in E. now subst.
  - intros Hin. exists token. split; [exact Hin | apply String.eqb_refl].
Qed.

Lemma org_tokens_stopwords (org_name : string) :
  (forall token, In token (PyStr.split (PyStr.lower org_name)) ->
                 In token common_words) ->
  org_tokens org_name = [].
Proof.
  intros Hall. unfold org_tokens. apply filter_none.
  intros token Hin. apply negb_false_iff. apply is_common_word_spec. auto.
Qed.

(** C2. [url_belongs_to_org] does not return on every text: on
    ["http://["], where the netloc opens a bracket that it does not close,
    [urlparse] raises [ValueError] and nothing catches it, whatever the
    organization name. *)
Theorem url_belongs_to_org_raises `{PyLib} (org_name : string) :
  url_belongs_to_org org_name (JStr "http://[") = Raise ValueError.
Proof. reflexivity. Qed.

(** The exception is not caught on the way up: one result with such a
    URL, whose text matches the name, ends the analysis of the
    organization and the run of the driver. *)
Example analyze_raises_on_bad_url :
  fst (analyze_search_results analyzer0 "Acme Corp"
         (JArr [acme_bad_url; acme_result]) (world_of [yes_reply] no_env))
  = Raise ValueError.
Proof. reflexivity. Qed.

Example driver_raises_on_bad_url :
  fst (analyze_decarbonization_goals ["Acme Corp"; "Veolia"] "out.csv"
         (world_of [ reply_200 (JObj [("web",
                       JObj [("results", JArr [acme_bad_url])])]);
                     yes_reply ] both_keys))
  = Raise ValueError.
Proof. reflexivity. Qed.

(** C9. For a name whose tokens are all stopwords the token list is
    empty and no match is ever reported: neither function ever returns
    true, [result_matches_org] returns false on every result whose title
    and description are strings (or missing), and [url_belongs_to_org]
    returns false on every URL that [urlparse] parses. On the URL
    ["http://["], though, [url_belongs_to_org] returns nothing: the
    [ValueError] of [urlparse] (see C2) comes before the tokens are
    looked at. *)
Theorem stopword_names_never_match `{PyLib} (org_name : string) :
  (forall token, In token (PyStr.split (PyStr.lower org_name)) ->
                 In token common_words) ->
  (forall r, result_matches_org org_name r <> Ok true)
  /\ (forall r title desc,
        py_get r "title" (JStr "") = Ok (JStr title) ->
        py_get r "description" (JStr "") = Ok (JStr desc) ->
        result_matches_org org_name r = Ok false)
  /\ (forall url, url_belongs_to_org org_name url <> Ok true)
  /\ (forall url host,
        Urllib.urlparse_hostname url = Ok host ->
        url_belongs_to_org org_name (JStr url) = Ok false)
  /\ url_belongs_to_org org_name (JStr "http://[") = Raise ValueError
  /\ url_belongs_to_org org_name (JStr "http://[") <> Ok false.
Proof.
  intros Hall. pose proof (org_tokens_stopwords _ Hall) as E.
  split; [|split; [|split; [|split; [|split]]]].
  - intros r. unfold result_matches_org. rewrite E.
    destruct (py_get r "title" (JStr "")) as [t|]; cbn; [|discriminate].
    destruct (py_lower t); cbn; [|discriminate].
    destruct (py_get r "description" (JStr "")) as [d|]; cbn; [|discriminate].
    destruct (py_lower d); cbn; discriminate.
  - intros r title desc T D. unfold result_matches_org.
    rewrite E, T, D. reflexivity.
  - intros url. unfold url_belongs_to_org. rewrite E.
    destruct (hostname_or_empty url); cbn; discriminate.
  - intros url host U. unfold url_belongs_to_org, hostname_or_empty.
    rewrite E, U. reflexivity.
  - reflexivity.
  - discriminate.
Qed.

Lemma stopword_names_never_match_witness :
  result_matches_org "The Company of - and Co Inc" acme_result = Ok false
  /\ url_belongs_to_org "The Company of - and Co Inc"
       (JStr "https://www.thecompany.com/") = Ok false
  /\ url_belongs_to_org "The Company of - and Co Inc" (JStr "http://[")
     = Raise ValueError.
Proof.
  assert (S : forall token,
             In token (PyStr.split (PyStr.lower "The Company of - and Co Inc")) ->
             In token common_words).
  { cbn. intuition (subst; auto). }
  destruct (stopword_names_never_match "The Company of - and Co Inc" S)
    as (_ & R & _ & U & B & _).
  split; [|split].
  - eapply R; reflexivity.
  - eapply U; reflexivity.
  - exact B.
Defined.

(** ** Pipeline driver *)

(** C1. With both keys set and an empty list of organizations, the
    driver writes the file, prints the line about it, and then raises
    [KeyError]: the frame built from no record has no has_goal column.
    The division that would follow has no guard either: it raises
    [ZeroDivisionError] when the total is 0. *)
Theorem summary_fails_on_empty_list `{PyLib} (output_csv : string) (w : World) :
  env_set (environ w "BRAVE_API_KEY") = true ->
  env_set (environ w "ANTHROPIC_API_KEY") = true ->
  fst (analyze_decarbonization_goals [] output_csv w) = Raise KeyError
  /\ trace (snd (analyze_decarbonization_goals [] output_csv w))
     = (trace w ++ [ EvToCsv output_csv {| columns := []; rows := [] |};
                     EvPrint (CsvSaved output_csv) ])%list
  /\ (forall orgs_with_goals, percent_of orgs_with_goals 0 = Raise ZeroDivisionError).
Proof.
  intros B A.
  unfold analyze_decarbonization_goals, bind, os_getenv.
  rewrite B, A. cbn. rewrite <- app_assoc. auto.
Qed.

Lemma summary_fails_on_empty_list_witness :
  fst (analyze_decarbonization_goals [] "decarbonization_goals.csv"
         (world_of [] both_keys))
  = Raise KeyError.
Proof.
  exact (proj1 (summary_fails_on_empty_list "decarbonization_goals.csv"
                  (world_of [] both_keys) eq_refl eq_refl)).
Defined.

Example driver_one_organization :
  fst (analyze_decarbonization_goals ["Acme Corp"] "out.csv"
         (world_of [reply_200 acme_body; yes_reply] both_keys))
  = Ok tt.
Proof. reflexivity. Qed.

Example driver_missing_key :
  analyze_decarbonization_goals [] "out.csv" (world_of [] no_env)
  = (Ok tt,
     {| network := fun n => nth n [] Failed;
        requests_made := 0;
        environ := no_env;
        trace := [ EvPrint (MissingKeys ["BRAVE_API_KEY"; "ANTHROPIC_API_KEY"]);
                   EvPrint EnvHint ] |}).
Proof. reflexivity. Qed.

(** ** Strings: substrings, tokens and lowercase *)

Lemma prefix_append (a s : string) :
  prefix a s = true <-> exists post, s = a ++ post.
Proof.
  revert s. induction a as [|c a IH]; intros s.
  - split; [intros _; now exists s | intros _; destruct s; reflexivity].
  - destruct s as [|d s]; cbn.
    + split; [discriminate | intros (post & E); discriminate].
    + destruct (Ascii.ascii_dec c d) as [->|N].
      * rewrite IH. split.
        -- intros (post & ->). now exists post.
        -- intros (post & [= ->]). now exists post.
      * split; [discriminate | intros (post & [= E _]); now symmetry in E].
Qed.

Lemma contains_substring (sub s : string) :
  PyStr.contains sub s = true <-> exists pre post, s = pre ++ sub ++ post.
Proof.
  induction s as [|c s IH].
  - cbn [PyStr.contains]. rewrite orb_false_r, prefix_append. split.
    + intros (post & E). now exists EmptyString, post.
    + intros (pre & post & E). destruct pre; [now exists post|discriminate].
  - cbn [PyStr.contains]. rewrite orb_true_iff, prefix_append, IH. split.
    + intros [(post & E)|(pre & post & E)].
      * now exists EmptyString, post.
      * exists (String c pre), post. cbn. now rewrite E.
    + intros (pre & post & E). destruct pre as [|c' pre].
      * left. now exists post.
      * right. cbn in E. injection E as _ E. now exists pre, post.
Qed.

Lemma forallb_append (p : ascii -> bool) (a b : string) :
  PyStr.forallb p (a ++ b) = PyStr.forallb p a && PyStr.forallb p b.
Proof.
  induction a as [|c a IH]; cbn; [reflexivity|].
  now rewrite IH, andb_assoc.
Qed.

(** Every token that [split] gives is made of characters of the text,
    none of them white space, and is not empty. *)
Lemma split_from_tokens (p : ascii -> bool) (s : string) : forall cur,
  PyStr.forallb (fun c => negb (PyStr.isspace c) && p c) cur = true ->
  PyStr.forallb p s = true ->
  Forall (fun t => t <> EmptyString
                   /\ PyStr.forallb (fun c => negb (PyStr.isspace c) && p c) t
                      = true)
         (PyStr.split_from cur s).
Proof.
  induction s as [|c s IH]; intros cur Hcur Hs; cbn.
  - destruct cur; constructor; auto. split; [discriminate | exact Hcur].
  - cbn in Hs. apply andb_true_iff in Hs. destruct Hs as [Hc Hs].
    destruct (PyStr.isspace c) eqn:Sp.
    + destruct cur.
      * apply IH; auto.
      * constructor; [split; [discriminate | exact Hcur]|]. apply IH; auto.
    + apply IH; auto. rewrite forallb_append, Hcur. cbn. now rewrite Sp, Hc.
Qed.

Lemma lower_char_idempotent (c : ascii) :
  PyStr.lower_char (PyStr.lower_char c) = PyStr.lower_char c.
Proof. destruct c as [[] [] [] [] [] [] [] []]; reflexivity. Qed.

Lemma lower_idempotent (s : string) : PyStr.lower (PyStr.lower s) = PyStr.lower s.
Proof.
  induction s as [|c s IH]; cbn; [reflexivity|].
  now rewrite lower_char_idempotent, IH.
Qed.

Lemma lower_is_lowercase (s : string) :
  PyStr.forallb (fun c => Ascii.eqb (PyStr.lower_char c) c) (PyStr.lower s) = true.
Proof.
  induction s as [|c s IH]; cbn; [reflexivity|].
  now rewrite lower_char_idempotent, Ascii.eqb_refl, IH.
Qed.

Lemma lowercase_fixed (t : string) :
  PyStr.forallb (fun c => Ascii.eqb (PyStr.lower_char c) c) t = true ->
  PyStr.lower t = t.
Proof.
  induction t as [|c t IH]; cbn; [reflexivity|].
  intros Hc. apply andb_true_iff in Hc. destruct Hc as [Hc Ht].
  apply Ascii.eqb_eq in Hc. now rewrite Hc, IH.
Qed.

Lemma forallb_weaken (p q : ascii -> bool) (t : string) :
  (forall c, p c = true -> q c = true) ->
  PyStr.forallb p t = true -> PyStr.forallb q t = true.
Proof.
  intros Hpq. induction t as [|c t IH]; cbn; [reflexivity|].
  intros Hc. apply andb_true_iff in Hc. destruct Hc as [Hc Ht].
  now rewrite (Hpq _ Hc), IH.
Qed.

(** X1. The tokens of an organization name are never empty, hold no
    white space, are in lower case and are not stopwords. *)
Theorem org_tokens_are_words (org_name token : string) :
  In token (org_tokens org_name) ->
  token <> EmptyString
  /\ PyStr.forallb (fun c => negb (PyStr.isspace c)) token = true
  /\ PyStr.lower token = token
  /\ ~ In token common_words.
Proof.
  unfold org_tokens. rewrite filter_In. intros [Hin Hcw].
  pose proof (split_from_tokens _ (PyStr.lower org_name) EmptyString
                eq_refl (lower_is_lowercase org_name)) as Htok.
  rewrite Forall_forall in Htok. destruct (Htok token Hin) as [Hne Hall].
  repeat split.
  - exact Hne.
  - revert Hall. apply forallb_weaken.
    intros c Hc. now apply andb_true_iff in Hc.
  - apply lowercase_fixed. revert Hall. apply forallb_weaken.
    intros c Hc. now apply andb_true_iff in Hc.
  - intros Hc. apply is_common_word_spec in Hc. rewrite Hc in Hcw. discriminate.
Qed.

Lemma org_tokens_are_words_witness :
  In "veolia" (org_tokens "The Veolia Company")
  /\ PyStr.lower "veolia" = "veolia"
  /\ ~ In "veolia" common_words.
Proof.
  assert (Hin : In "veolia" (org_tokens "The Veolia Company")) by (now left).
  destruct (org_tokens_are_words "The Veolia Company" "veolia" Hin)
    as (_ & _ & L & C).
  auto.
Defined.

(** X2. Capitals in the organization name do not matter: the name and
    its lowercase form have the same tokens, so both checks give the
    same answer for them. *)
Theorem org_name_case_insensitive `{PyLib} (org_name : string) (r url : json) :
  org_tokens (PyStr.lower org_name) = org_tokens org_name
  /\ result_matches_org (PyStr.lower org_name) r = result_matches_org org_name r
  /\ url_belongs_to_org (PyStr.lower org_name) url
     = url_belongs_to_org org_name url.
Proof.
  assert (E : org_tokens (PyStr.lower org_name) = org_tokens org_name).
  { unfold org_tokens. now rewrite lower_idempotent. }
  unfold result_matches_org, url_belongs_to_org. now rewrite E.
Qed.

(** X3. On a result whose title and description are strings, the text
    check succeeds exactly when some token of the name occurs, as a piece
    of text, in the lowercased title or in the lowercased description. *)
Theorem result_matches_org_substring (org_name : string) (r : json)
    (title desc : string) :
  py_get r "title" (JStr "") = Ok (JStr title) ->
  py_get r "description" (JStr "") = Ok (JStr desc) ->
  (result_matches_org org_name r = Ok true <->
   exists token pre post,
     In token (org_tokens org_name)
     /\ (PyStr.lower title = pre ++ token ++ post
         \/ PyStr.lower desc = pre ++ token ++ post))
  /\ (result_matches_org org_name r = Ok false <->
      forall token, In token (org_tokens org_name) ->
        PyStr.contains token (PyStr.lower title) = false
        /\ PyStr.contains token (PyStr.lower desc) = false).
Proof.
  intros T D. unfold result_matches_org. rewrite T, D. cbn [rbind py_lower].
  split.
  - split.
    + intros [= E]. apply existsb_exists in E. destruct E as (token & Hin & E).
      apply orb_true_iff in E.
      destruct E as [E|E]; apply contains_substring in E;
        destruct E as (pre & post & E); exists token, pre, post; auto.
    + intros (token & pre & post & Hin & E). f_equal.
      apply existsb_exists. exists token. split; [exact Hin|].
      apply orb_true_iff.
      destruct E as [E|E]; [left|right]; apply contains_substring; eauto.
  - split.
    + intros [= E] token Hin. apply orb_false_iff.
      destruct (PyStr.contains token (PyStr.lower title)
                || PyStr.contains token (PyStr.lower desc)) eqn:C;
        [|reflexivity].
      assert (X : existsb (fun token => PyStr.contains token (PyStr.lower title)
                                        || PyStr.contains token (PyStr.lower desc))
                    (org_tokens org_name) = true).
      { apply existsb_exists. now exists token. }
      congruence.
    + intros Hall. f_equal.
      destruct (existsb _ (org_tokens org_name)) eqn:X; [|reflexivity].
      apply existsb_exists in X. destruct X as (token & Hin & C).
      destruct (Hall token Hin) as [C1 C2]. rewrite C1, C2 in C. discriminate.
Qed.

Lemma result_matches_org_substring_witness :
  exists token pre post,
    In token (org_tokens "Acme Corp")
    /\ (PyStr.lower "Acme decarbonization" = pre ++ token ++ post
        \/ PyStr.lower "Acme targets net zero by 2035" = pre ++ token ++ post).
Proof.
  apply (proj1 (proj1 (result_matches_org_substring "Acme Corp" acme_result
                         "Acme decarbonization" "Acme targets net zero by 2035"
                         eq_refl eq_refl))).
  reflexivity.
Defined.

(** ** URLs without brackets, URLs without a host *)

Lemma has_char_append (c : ascii) (a b : string) :
  PyStr.has_char c (a ++ b) = PyStr.has_char c a || PyStr.has_char c b.
Proof.
  induction a as [|d a IH]; cbn; [reflexivity|].
  now rewrite IH, orb_assoc.
Qed.

Lemma has_char_lstrip_by (c : ascii) (p : ascii -> bool) (s : string) :
  PyStr.has_char c s = false -> PyStr.has_char c (PyStr.lstrip_by p s) = false.
Proof.
  induction s as [|d s IH]; cbn; [reflexivity|].
  intros Hc. apply orb_false_iff in Hc. destruct Hc as [Hd Hs].
  destruct (p d); [now apply IH|]. cbn. now rewrite Hd, Hs.
Qed.

Lemma has_char_filter (c : ascii) (p : ascii -> bool) (s : string) :
  PyStr.has_char c s = false -> PyStr.has_char c (PyStr.filter p s) = false.
Proof.
  induction s as [|d s IH]; cbn; [reflexivity|].
  intros Hc. apply orb_false_iff in Hc. destruct Hc as [Hd Hs].
  destruct (p d); [cbn; rewrite Hd|]; now apply IH.
Qed.

Lemma partition_found (c : ascii) (s h t : string) :
  PyStr.partition c s = (h, true, t) -> s = h ++ String c t.
Proof.
  revert h. induction s as [|d s IH]; intros h; cbn; [discriminate|].
  destruct (Ascii.eqb c d) eqn:E.
  - apply Ascii.eqb_eq in E. subst d. now intros [= <- <-].
  - destruct (PyStr.partition c s) as [[h' f] t'].
    destruct f; [|discriminate].
    intros [= <- <-]. cbn. now rewrite (IH h' eq_refl).
Qed.

Lemma has_char_strip_scheme (c : ascii) (url : string) :
  PyStr.has_char c url = false ->
  PyStr.has_char c (Urllib.strip_scheme url) = false.
Proof.
  intros Hc. unfold Urllib.strip_scheme.
  destruct (PyStr.partition ":" url) as [[h f] rest] eqn:P.
  destruct h as [|c0 pre]; [exact Hc|].
  destruct f; [|exact Hc].
  destruct (PyStr.is_ascii_alpha c0
            && PyStr.forallb Urllib.is_scheme_char (String c0 pre));
    [|exact Hc].
  apply partition_found in P. rewrite P, has_char_append in Hc.
  apply orb_false_iff in Hc. destruct Hc as [_ Hc]. cbn in Hc.
  now apply orb_false_iff in Hc.
Qed.

Lemma has_char_take_netloc (c : ascii) (s : string) :
  PyStr.has_char c s = false ->
  PyStr.has_char c (Urllib.take_netloc s) = false.
Proof.
  induction s as [|d s IH]; cbn; [reflexivity|].
  intros Hc. apply orb_false_iff in Hc. destruct Hc as [Hd Hs].
  destruct (Urllib.is_netloc_delim d); [reflexivity|].
  cbn. now rewrite Hd, IH.
Qed.

Section Brackets.
Context `{PyLib}.

Lemma urlparse_without_brackets (url : string) :
  PyStr.has_char "[" url = false ->
  PyStr.has_char "]" url = false ->
  exists host, Urllib.urlparse_hostname url = Ok host.
Proof.
  intros Ho Hc. unfold Urllib.urlparse_hostname, Urllib.urlsplit_netloc.
  assert (Uo : PyStr.has_char "[" (Urllib.strip_scheme
                 (Urllib.remove_unsafe (Urllib.lstrip_c0 url))) = false).
  { apply has_char_strip_scheme, has_char_filter, has_char_lstrip_by, Ho. }
  assert (Uc : PyStr.has_char "]" (Urllib.strip_scheme
                 (Urllib.remove_unsafe (Urllib.lstrip_c0 url))) = false).
  { apply has_char_strip_scheme, has_char_filter, has_char_lstrip_by, Hc. }
  destruct (Urllib.strip_scheme (Urllib.remove_unsafe (Urllib.lstrip_c0 url)))
    as [|c1 [|c2 rest]].
  { eexists; reflexivity. }
  { destruct c1 as [[] [] [] [] [] [] [] []]; eexists; reflexivity. }
  destruct (Ascii.eqb c1 "/") eqn:E1; [|].
  - apply Ascii.eqb_eq in E1. subst c1.
    destruct (Ascii.eqb c2 "/") eqn:E2.
    + apply Ascii.eqb_eq in E2. subst c2.
      cbn in Uo, Uc.
      rewrite (has_char_take_netloc _ _ Uo), (has_char_take_netloc _ _ Uc).
      cbn. eexists; reflexivity.
    + destruct c2 as [[] [] [] [] [] [] [] []];
        try discriminate E2; cbn; eexists; reflexivity.
  - destruct c1 as [[] [] [] [] [] [] [] []];
      try discriminate E1; cbn; eexists; reflexivity.
Qed.

End Brackets.

(** X4. On a URL made of characters below U+0100 that holds no square
    bracket the hostname check raises nothing: it returns true or false,
    whatever the organization name. (Beyond U+0100 [urlparse] can raise
    without a bracket; see [Urllib.urlsplit_netloc].) *)
Theorem url_belongs_to_org_without_brackets `{PyLib}
    (org_name url : string) :
  PyStr.has_char "[" url = false ->
  PyStr.has_char "]" url = false ->
  exists b, url_belongs_to_org org_name (JStr url) = Ok b.
Proof.
  intros Ho Hc.
  destruct (urlparse_without_brackets url Ho Hc) as (host & E).
  unfold url_belongs_to_org, hostname_or_empty. rewrite E. cbn.
  eexists; reflexivity.
Qed.

Lemma url_belongs_to_org_without_brackets_witness :
  exists b,
    url_belongs_to_org "Acme Corp" (JStr "https://user@Acme.com:8443/a?b#c")
    = Ok b.
Proof.
  apply (url_belongs_to_org_without_brackets "Acme Corp"
           "https://user@Acme.com:8443/a?b#c"); reflexivity.
Defined.

Lemma contains_in_empty (token : string) :
  token <> EmptyString -> PyStr.contains token EmptyString = false.
Proof. destruct token; [contradiction | reflexivity]. Qed.

Lemma no_token_in_empty (org_name : string) :
  existsb (fun token => PyStr.contains token EmptyString) (org_tokens org_name)
  = false.
Proof.
  destruct (existsb _ (org_tokens org_name)) eqn:X; [|reflexivity].
  apply existsb_exists in X. destruct X as (token & Hin & C).
  pose proof (split_from_tokens (fun _ => true) (PyStr.lower org_name)
                EmptyString eq_refl) as Htok.
  assert (A : forall s, PyStr.forallb (fun _ => true) s = true).
  { intros s. induction s as [|c s IH]; [reflexivity | exact IH]. }
  specialize (A (PyStr.lower org_name)).
  specialize (Htok A). rewrite Forall_forall in Htok.
  unfold org_tokens in Hin. apply filter_In in Hin. destruct Hin as [Hin _].
  destruct (Htok token Hin) as [Hne _].
  rewrite (contains_in_empty token Hne) in C. discriminate.
Qed.

(** X5. A URL in which [urlparse] finds no host (no double slash, or
    nothing after it), and a url entry that is null, 0 or another false
    value, belong to no organization: the hostname is taken as empty and
    no token is empty. *)
Theorem url_without_host_belongs_to_nobody `{PyLib} (org_name : string) :
  (forall url, Urllib.urlparse_hostname url = Ok None ->
               url_belongs_to_org org_name (JStr url) = Ok false)
  /\ (forall v, truthy v = false -> url_belongs_to_org org_name v = Ok false).
Proof.
  split.
  - intros url E. unfold url_belongs_to_org, hostname_or_empty.
    rewrite E. cbn. now rewrite no_token_in_empty.
  - intros v F. unfold url_belongs_to_org, hostname_or_empty.
    destruct v as [|b|z|q|s| |]; cbn in F |- *; rewrite ?F; cbn;
      try (now rewrite no_token_in_empty).
    apply negb_false_iff, String.eqb_eq in F. subst s. cbn.
    now rewrite no_token_in_empty.
Qed.

Lemma url_without_host_belongs_to_nobody_witness :
  url_belongs_to_org "Acme Corp" (JStr "acme.com/press") = Ok false
  /\ url_belongs_to_org "Acme Corp" JNull = Ok false.
Proof.
  destruct (url_without_host_belongs_to_nobody "Acme Corp") as [S F].
  split; [apply S | apply F]; reflexivity.
Defined.

(** ** Search responses without results, and the inference request *)

Lemma search_organization_value (self : DecarbonizationAnalyzer)
    (org_name : string) (w : World) :
  fst (search_organization self org_name w)
  = Ok (match final_reply w with
        | Answered resp =>
            if (status_code resp =? 200)%Z
            then match json_body resp with
                 | Some body =>
                     match web_results body with
                     | Ok v => v
                     | Raise _ => JArr []
                     end
                 | None => JArr []
                 end
            else JArr []
        | Failed => JArr []
        end).
Proof.
  rewrite search_organization_cases. cbv zeta.
  unfold final_reply, rate_limited.
  destruct (network w (requests_made w)) as [r1|]; [|reflexivity].
  destruct (status_code r1 =? 429)%Z; reflexivity.
Qed.

(** X6. A final response with status 200 whose body decodes, but holds
    nothing under web.results (the body is not an object, it has no "web"
    entry, that entry is not an object, or it has no "results" entry),
    gives the empty list. *)
Theorem search_organization_without_results
    (self : DecarbonizationAnalyzer) (org_name : string) (w : World)
    (r : Response) (body : json) :
  final_reply w = Answered r ->
  status_code r = 200 ->
  json_body r = Some body ->
  (forall v, ~ has_results body v) ->
  fst (search_organization self org_name w) = Ok (JArr []).
Proof.
  intros F S200 B N. rewrite search_organization_value, F, S200, B.
  cbn [Z.eqb Pos.eqb]. f_equal.
  unfold web_results, py_get.
  destruct body as [| | | | | |d]; try reflexivity.
  cbn [rbind]. unfold dict_get.
  destruct (dict_lookup "web" d) as [web|] eqn:W; [|reflexivity].
  destruct web as [| | | | | |d']; try reflexivity.
  destruct (dict_lookup "results" d') as [v|] eqn:R; [|reflexivity].
  exfalso. apply (N v). now exists d, d'.
Qed.

Lemma search_organization_without_results_witness :
  fst (search_organization analyzer0 "Acme Corp"
         (world_of [reply_429; reply_200 (JObj [("web", JNull)])] no_env))
  = Ok (JArr [])
  /\ fst (search_organization analyzer0 "Acme Corp"
            (world_of [reply_200 (JArr [acme_result])] no_env))
     = Ok (JArr []).
Proof.
  split.
  - eapply (search_organization_without_results analyzer0 "Acme Corp"
              (world_of [reply_429; reply_200 (JObj [("web", JNull)])] no_env));
      try reflexivity.
    intros v (d & web & [= <-] & W & _). discriminate W.
  - eapply (search_organization_without_results analyzer0 "Acme Corp"
              (world_of [reply_200 (JArr [acme_result])] no_env));
      try reflexivity.
    intros v (d & web & E & _). discriminate E.
Defined.

(** X7. The inference step sends exactly one request, never a second
    one, sleeps not at all and raises nothing; when the request fails, or
    the status is not 200, or the body does not decode, the answer is the
    empty dict. *)
Theorem infer_sends_one_request `{PyLib}
    (self : DecarbonizationAnalyzer) (prompt : string) (w : World) :
  exists parsed,
    infer self prompt w
    = (Ok parsed, after_request (inference_request self prompt) w)
    /\ (network w (requests_made w) = Failed -> parsed = [])
    /\ (forall r, network w (requests_made w) = Answered r ->
                  status_code r <> 200 \/ json_body r = None ->
                  parsed = []).
Proof.
  unfold infer, try_except, bind, request, lift, ret, after_request,
    inference_request.
  destruct (network w (requests_made w)) as [r|] eqn:N.
  - destruct (parse_inference r) as [parsed|e] eqn:P.
    + exists parsed. split; [reflexivity|]. split; [discriminate|].
      intros r' [= <-] [S|B]; unfold parse_inference in P.
      * apply Z.eqb_neq in S. rewrite S in P. now injection P.
      * unfold response_json in P. rewrite B in P.
        destruct (status_code r =? 200)%Z; [discriminate P | now injection P].
    + exists []. repeat split; auto.
  - exists []. repeat split; auto.
Qed.

Lemma infer_sends_one_request_witness :
  (exists parsed,
     infer analyzer0 "prompt" (world_of [reply_429] no_env)
     = (Ok parsed,
        after_request (inference_request analyzer0 "prompt")
                      (world_of [reply_429] no_env))
     /\ parsed = [])
  /\ (exists parsed,
        infer analyzer0 "prompt" (world_of [] no_env)
        = (Ok parsed,
           after_request (inference_request analyzer0 "prompt")
                         (world_of [] no_env))
        /\ parsed = []).
Proof.
  split.
  - destruct (infer_sends_one_request analyzer0 "prompt"
                (world_of [reply_429] no_env)) as (parsed & E & _ & S).
    exists parsed. split; [exact E|].
    eapply S; [reflexivity|]. left. cbn. discriminate.
  - destruct (infer_sends_one_request analyzer0 "prompt"
                (world_of [] no_env)) as (parsed & E & F & _).
    exists parsed. split; [exact E|]. apply F. reflexivity.
Defined.

(** ** The JSON candidate in the text of the answer *)

Lemma after_first_open_spec (text rest : string) :
  after_first_open text = Some rest <->
  exists pre, text = pre ++ String "{" rest /\ PyStr.has_char "{" pre = false.
Proof.
  revert rest. induction text as [|c text IH]; intros rest; cbn.
  - split; [discriminate|]. intros (pre & E & _). destruct pre; discriminate.
  - destruct (Ascii.eqb c "{") eqn:E.
    + apply Ascii.eqb_eq in E. subst c. split.
      * intros [= <-]. now exists EmptyString.
      * intros ([|d pre] & E & Hp); cbn in E.
        -- now injection E as <-.
        -- injection E as <- _. cbn in Hp. discriminate.
    + rewrite IH. split.
      * intros (pre & -> & Hp). exists (String c pre). split; [reflexivity|].
        cbn [PyStr.has_char]. now rewrite Hp, orb_false_r, Ascii.eqb_sym.
      * intros ([|d pre] & E' & Hp); cbn in E'.
        -- injection E' as -> _. discriminate.
        -- injection E' as <- ->. exists pre. split; [reflexivity|].
           cbn [PyStr.has_char] in Hp. now apply orb_false_iff in Hp.
Qed.

Lemma upto_last_close_none (s : string) :
  upto_last_close s = None <-> PyStr.has_char "}" s = false.
Proof.
  induction s as [|c s IH]; cbn [upto_last_close PyStr.has_char]; [tauto|].
  destruct (upto_last_close s) as [p|].
  - split; [discriminate|]. intros Hc. apply orb_false_iff in Hc.
    destruct Hc as [_ Hc]. apply IH in Hc. discriminate.
  - rewrite (proj1 IH eq_refl), orb_false_r.
    rewrite (Ascii.eqb_sym "}" c). destruct (Ascii.eqb c "}"); split;
      auto; discriminate.
Qed.

Lemma upto_last_close_spec (s p : string) :
  upto_last_close s = Some p <->
  exists mid post,
    s = mid ++ String "}" post
    /\ PyStr.has_char "}" post = false
    /\ p = mid ++ "}".
Proof.
  revert p. induction s as [|c s IH]; intros p; cbn.
  - split; [discriminate|]. intros (mid & post & E & _).
    destruct mid; discriminate.
  - destruct (upto_last_close s) as [q|] eqn:U.
    + split.
      * intros [= <-]. destruct (proj1 (IH q) eq_refl) as (mid & post & -> & Hp & ->).
        now exists (String c mid), post.
      * intros ([|d mid] & post & E & Hp & ->); cbn in E.
        -- injection E as _ <-. apply upto_last_close_none in Hp. congruence.
        -- injection E as <- ->. cbn. f_equal. f_equal.
           assert (X : Some q = Some (mid ++ "}")).
           { apply IH. now exists mid, post. }
           now injection X.
    + apply upto_last_close_none in U. split.
      * destruct (Ascii.eqb c "}") eqn:E; [|discriminate].
        apply Ascii.eqb_eq in E. subst c. intros [= <-].
        now exists EmptyString, s.
      * intros ([|d mid] & post & E & Hp & ->); cbn in E.
        -- now injection E as -> _.
        -- injection E as _ ->. rewrite has_char_append in U.
           apply orb_false_iff in U. destruct U as [_ U]. cbn in U. discriminate.
Qed.

(** X8. The JSON candidate is the piece of the text that goes from the
    first opening brace to the last closing brace after it; there is none
    exactly when no closing brace follows the first opening one. *)
Theorem json_candidate_outermost_braces (text : string) :
  (forall candidate,
     json_candidate text = Some candidate <->
     exists pre mid post,
       text = pre ++ String "{" (mid ++ String "}" post)
       /\ PyStr.has_char "{" pre = false
       /\ PyStr.has_char "}" post = false
       /\ candidate = String "{" (mid ++ "}"))
  /\ (json_candidate text = None <->
      forall pre rest, text = pre ++ String "{" rest ->
                       PyStr.has_char "{" pre = false ->
                       PyStr.has_char "}" rest = false).
Proof.
  unfold json_candidate. split.
  - intros candidate. split.
    + destruct (after_first_open text) as [rest|] eqn:A; [|discriminate].
      destruct (upto_last_close rest) as [p|] eqn:U; [|discriminate].
      intros [= <-].
      apply after_first_open_spec in A. destruct A as (pre & -> & Hpre).
      apply upto_last_close_spec in U. destruct U as (mid & post & -> & Hpost & ->).
      now exists pre, mid, post.
    + intros (pre & mid & post & -> & Hpre & Hpost & ->).
      rewrite (proj2 (after_first_open_spec _ (mid ++ String "}" post))).
      2: now exists pre.
      rewrite (proj2 (upto_last_close_spec _ (mid ++ "}"))); [reflexivity|].
      now exists mid, post.
  - split.
    + intros N pre rest -> Hpre.
      rewrite (proj2 (after_first_open_spec _ rest)) in N by now exists pre.
      destruct (upto_last_close rest) eqn:U; [discriminate|].
      now apply upto_last_close_none.
    + intros Hall.
      destruct (after_first_open text) as [rest|] eqn:A; [|reflexivity].
      apply after_first_open_spec in A. destruct A as (pre & -> & Hpre).
      rewrite (proj2 (upto_last_close_none rest)); [reflexivity|].
      now apply (Hall pre).
Qed.

Lemma json_candidate_outermost_braces_witness :
  json_candidate "see {a {b} c} end" = Some "{a {b} c}"
  /\ PyStr.has_char "}" " never closed" = false.
Proof.
  split.
  - apply (proj1 (json_candidate_outermost_braces "see {a {b} c} end")).
    exists "see ", "a {b} c", " end". repeat split; reflexivity.
  - apply (proj1 (proj2 (json_candidate_outermost_braces
                           "closed } then { never closed"))
             eq_refl "closed } then "); reflexivity.
Defined.

(** ** What the fallback stage keeps *)

Lemma lstrip_by_empty (p : ascii -> bool) (s : string) :
  PyStr.lstrip_by p s = EmptyString -> PyStr.forallb p s = true.
Proof.
  induction s as [|c s IH]; cbn; [reflexivity|].
  destruct (p c); [exact IH | discriminate].
Qed.

Lemma rstrip_by_empty (p : ascii -> bool) (s : string) :
  PyStr.rstrip_by p s = EmptyString -> PyStr.forallb p s = true.
Proof.
  induction s as [|c s IH]; cbn; [reflexivity|].
  destruct (PyStr.rstrip_by p s); [|discriminate].
  destruct (p c); [intros _; now apply IH | discriminate].
Qed.

Lemma lstrip_by_head (p : ascii -> bool) (s : string) (c : ascii) (t : string) :
  PyStr.lstrip_by p s = String c t -> p c = false.
Proof.
  induction s as [|d s IH]; cbn; [discriminate|].
  destruct (p d) eqn:E; [exact IH|]. now intros [= <- _].
Qed.

Lemma strip_empty (s : string) :
  PyStr.strip s = EmptyString -> PyStr.forallb PyStr.isspace s = true.
Proof.
  unfold PyStr.strip. intros R. apply rstrip_by_empty in R.
  destruct (PyStr.lstrip_by PyStr.isspace s) as [|c t] eqn:L.
  - now apply lstrip_by_empty.
  - apply lstrip_by_head in L. cbn in R. rewrite L in R. discriminate.
Qed.

Lemma isspace_not_letter (c : ascii) :
  PyStr.isspace c = true -> PyStr.is_ascii_lower (PyStr.lower_char c) = false.
Proof. destruct c as [[] [] [] [] [] [] [] []]; cbn; congruence. Qed.

Lemma prefix_has_head (a : ascii) (sub s : string) :
  prefix (String a sub) s = true -> PyStr.has_char a s = true.
Proof.
  destruct s as [|d s]; cbn; [discriminate|].
  destruct (Ascii.ascii_dec a d) as [->|]; [|discriminate].
  now rewrite Ascii.eqb_refl.
Qed.

Lemma contains_has_head (a : ascii) (sub s : string) :
  PyStr.contains (String a sub) s = true -> PyStr.has_char a s = true.
Proof.
  induction s as [|d s IH]; cbn [PyStr.contains PyStr.has_char].
  - rewrite orb_false_r. apply prefix_has_head.
  - intros C. apply orb_true_iff in C. destruct C as [C|C].
    + apply prefix_has_head in C. exact C.
    + rewrite (IH C). apply orb_true_r.
Qed.

Lemma spaces_have_no_letter (a : ascii) (s : string) :
  PyStr.is_ascii_lower a = true ->
  PyStr.forallb PyStr.isspace s = true ->
  PyStr.has_char a (PyStr.lower s) = false.
Proof.
  intros La. induction s as [|c s IH]; cbn [PyStr.forallb PyStr.lower PyStr.has_char];
    [reflexivity|].
  intros Hs. apply andb_true_iff in Hs. destruct Hs as [Hc Hs].
  rewrite (IH Hs), orb_false_r.
  destruct (Ascii.eqb a (PyStr.lower_char c)) eqn:E; [|reflexivity].
  apply Ascii.eqb_eq in E. subst a.
  rewrite (isspace_not_letter c Hc) in La. discriminate.
Qed.

(** A description that mentions the goal is not blank. *)
Lemma mentions_goal_not_blank (desc : string) :
  mentions_goal (PyStr.lower desc) = true ->
  PyStr.take 250 (PyStr.strip desc) <> EmptyString.
Proof.
  intros G E.
  assert (S : PyStr.strip desc = EmptyString).
  { destruct (PyStr.strip desc); [reflexivity | discriminate E]. }
  apply strip_empty in S.
  unfold mentions_goal in G. apply orb_true_iff in G.
  destruct G as [G|G]; apply contains_has_head in G;
    rewrite spaces_have_no_letter in G; auto; discriminate.
Qed.

Section Settled.
Context `{PyLib}.

(** What each loop finds has a true value. *)
Lemma steps_find_truthy (org_name : string) (r v : json) :
  source_url_step org_name r = Ok (Some v)
  \/ target_date_step org_name r = Ok (Some v)
  \/ description_step org_name r = Ok (Some v) ->
  truthy v = true.
Proof.
  intros [S|[S|S]].
  - now apply source_url_step_some in S.
  - apply target_date_step_some in S.
    destruct S as (_ & desc & y & _ & (pre & ((d1 & d2 & -> & _) & _) & _) & ->).
    reflexivity.
  - apply description_step_some in S.
    destruct S as (desc & _ & G & _ & ->).
    apply mentions_goal_not_blank in G. cbn [truthy].
    destruct (PyStr.take 250 (PyStr.strip desc)); [contradiction | reflexivity].
Qed.

Lemma first_hit_truthy (step : json -> exc (option json)) (rs : list json)
    (v : json) :
  (forall r v, step r = Ok (Some v) -> truthy v = true) ->
  first_hit step rs = Ok (Some v) -> truthy v = true.
Proof.
  intros Hstep F. apply first_hit_some in F.
  destruct F as (pre & r & post & _ & _ & Hr). eauto.
Qed.

(** Once a fallback has run, running it again on any answer that agrees
    with its result on the key changes nothing. *)
Lemma fallback_settles (key : string) (step : json -> exc (option json))
    (rs : list json) (p p1 q : dict) :
  (forall r v, step r = Ok (Some v) -> truthy v = true) ->
  fallback key step rs p = Ok p1 ->
  dict_lookup key q = dict_lookup key p1 ->
  fallback key step rs q = Ok q.
Proof.
  intros Hstep F Q. unfold fallback in *. unfold dict_get in *. rewrite Q.
  destruct (truthy match dict_lookup key p with Some v => v | None => JNull end)
    eqn:T.
  - injection F as <-. now rewrite T.
  - destruct (first_hit step rs) as [[v|]|e] eqn:Hit; cbn in F;
      try discriminate; injection F as <-.
    + rewrite dict_lookup_set_same.
      now rewrite (first_hit_truthy step rs v Hstep Hit).
    + rewrite T. reflexivity.
Qed.

End Settled.

Lemma fallback_keeps `{PyLib} (k : string) (step : json -> exc (option json))
    (rs : list json) (q q' : dict) (key : string) :
  fallback k step rs q = Ok q' ->
  key <> k \/ truthy (dict_get key JNull q) = true ->
  dict_lookup key q' = dict_lookup key q.
Proof.
  intros F K.
  destruct (fallback_cases _ _ _ _ _ F) as [->|(T & v & _ & ->)];
    [reflexivity|].
  destruct K as [K|K].
  - now apply dict_lookup_set_other.
  - destruct (String.eqb key k) eqn:E.
    + apply String.eqb_eq in E. subst k. congruence.
    + apply String.eqb_neq in E. now apply dict_lookup_set_other.
Qed.

(** X9. The fallback stage touches nothing but source_url, target_date
    and description, and none of these when the answer already holds a
    true value for it. *)
Theorem fallbacks_keep_given_fields `{PyLib}
    (org_name : string) (results : list json) (p p' : dict) (key : string) :
  fallbacks org_name results p = Ok p' ->
  (key <> "source_url" /\ key <> "target_date" /\ key <> "description")
  \/ truthy (dict_get key JNull p) = true ->
  dict_lookup key p' = dict_lookup key p.
Proof.
  intros F K.
  destruct (fallbacks_stages _ _ _ _ F) as (p1 & p2 & F1 & F2 & F3).
  assert (E1 : dict_lookup key p1 = dict_lookup key p).
  { apply (fallback_keeps _ _ _ _ _ key F1). tauto. }
  assert (E2 : dict_lookup key p2 = dict_lookup key p1).
  { apply (fallback_keeps _ _ _ _ _ key F2).
    unfold dict_get in *. rewrite E1. tauto. }
  assert (E3 : dict_lookup key p' = dict_lookup key p2).
  { apply (fallback_keeps _ _ _ _ _ key F3).
    unfold dict_get in *. rewrite E2, E1. tauto. }
  congruence.
Qed.

Lemma fallbacks_keep_given_fields_witness :
  dict_lookup "source_url"
    [("source_url", JStr "https://example.org/report");
     ("target_date", JStr "2035");
     ("description", JStr "Acme targets net zero by 2035")]
  = Some (JStr "https://example.org/report")
  /\ dict_lookup "confidence"
       [("confidence", JInt 3);
        ("source_url", JStr "https://acme.com/press");
        ("target_date", JStr "2035");
        ("description", JStr "Acme targets net zero by 2035")]
     = Some (JInt 3).
Proof.
  split.
  - apply (fallbacks_keep_given_fields "Acme Corp" [acme_result]
             [("source_url", JStr "https://example.org/report")]
             _ "source_url" eq_refl).
    right. reflexivity.
  - apply (fallbacks_keep_given_fields "Acme Corp" [acme_result]
             [("confidence", JInt 3)] _ "confidence" eq_refl).
    left. repeat split; discriminate.
Defined.

(** X10. Running the fallback stage a second time, on its own result
    and the same search results, changes nothing. *)
Theorem fallbacks_idempotent `{PyLib}
    (org_name : string) (results : list json) (p p' : dict) :
  fallbacks org_name results p = Ok p' ->
  fallbacks org_name results p' = Ok p'.
Proof.
  intros F.
  destruct (fallbacks_stages _ _ _ _ F) as (p1 & p2 & F1 & F2 & F3).
  assert (S1 : fallback "source_url" (source_url_step org_name) results p'
               = Ok p').
  { apply (fallback_settles _ _ _ p p1); auto.
    - intros r v S. apply (steps_find_truthy org_name r v). auto.
    - rewrite (fallback_other_key _ "source_url" _ _ _ _ F3) by discriminate.
      now rewrite (fallback_other_key _ "source_url" _ _ _ _ F2) by discriminate. }
  assert (S2 : fallback "target_date" (target_date_step org_name) results p'
               = Ok p').
  { apply (fallback_settles _ _ _ p1 p2); auto.
    - intros r v S. apply (steps_find_truthy org_name r v). auto.
    - now rewrite (fallback_other_key _ "target_date" _ _ _ _ F3) by discriminate. }
  assert (S3 : fallback "description" (description_step org_name) results p'
               = Ok p').
  { apply (fallback_settles _ _ _ p2 p'); auto.
    intros r v S. apply (steps_find_truthy org_name r v). auto. }
  unfold fallbacks. rewrite S1. cbn [rbind]. rewrite S2. cbn [rbind]. exact S3.
Qed.

Lemma fallbacks_idempotent_witness :
  fallbacks "Acme Corp" [other_result; acme_result]
    [("has_goal", JStr "Yes");
     ("source_url", JStr "https://acme.com/press");
     ("target_date", JStr "2035");
     ("description", JStr "Acme targets net zero by 2035")]
  = Ok [("has_goal", JStr "Yes");
        ("source_url", JStr "https://acme.com/press");
        ("target_date", JStr "2035");
        ("description", JStr "Acme targets net zero by 2035")].
Proof.
  exact (fallbacks_idempotent "Acme Corp" [other_result; acme_result]
           [("has_goal", JStr "Yes")] _ eq_refl).
Defined.

(** ** Rows for organizations without search results; missing keys *)

(** X11. Whatever false value the search hands over (an empty list,
    null, an empty text), the extractor answers with the Not Found record
    and sends nothing; in particular a failed search followed by the
    analysis gives that record, with no inference request. *)
Theorem failed_search_gives_not_found `{PyLib}
    (self : DecarbonizationAnalyzer) (org_name : string) (w : World) :
  (forall v, truthy v = false ->
             analyze_search_results self org_name v w
             = (Ok (not_found_record org_name), w))
  /\ (search_failed w ->
      bind (search_organization self org_name)
           (analyze_search_results self org_name) w
      = (Ok (not_found_record org_name),
         snd (search_organization self org_name w))).
Proof.
  split.
  - intros v F. unfold analyze_search_results. rewrite F. reflexivity.
  - intros SF.
    assert (V : fst (search_organization self org_name w) = Ok (JArr [])).
    { rewrite search_organization_value. unfold search_failed in SF.
      destruct (final_reply w) as [r|]; [|reflexivity].
      destruct SF as [S|B].
      - apply Z.eqb_neq in S. now rewrite S.
      - rewrite B. now destruct (status_code r =? 200)%Z. }
    unfold bind.
    destruct (search_organization self org_name w) as [v w1].
    cbn [fst snd] in *. rewrite V. reflexivity.
Qed.

Lemma failed_search_gives_not_found_witness :
  analyze_search_results analyzer0 "Acme Corp" JNull (world_of [] no_env)
  = (Ok (not_found_record "Acme Corp"), world_of [] no_env)
  /\ fst (bind (search_organization analyzer0 "Acme Corp")
               (analyze_search_results analyzer0 "Acme Corp")
               (world_of [reply_429; reply_429; yes_reply] no_env))
     = Ok (not_found_record "Acme Corp").
Proof.
  destruct (failed_search_gives_not_found analyzer0 "Acme Corp"
              (world_of [] no_env)) as [F _].
  destruct (failed_search_gives_not_found analyzer0 "Acme Corp"
              (world_of [reply_429; reply_429; yes_reply] no_env)) as [_ S].
  split.
  - apply F. reflexivity.
  - rewrite S; [reflexivity|]. left. cbn. discriminate.
Defined.

(** X12. When a key is missing from the environment, or is empty, the
    driver does no work: it sends no request, writes no file, prints
    which keys are missing and the hint, and returns. *)
Theorem driver_stops_without_keys `{PyLib}
    (org_list : list string) (output_csv : string) (w : World) :
  env_set (environ w "BRAVE_API_KEY") = false
  \/ env_set (environ w "ANTHROPIC_API_KEY") = false ->
  analyze_decarbonization_goals org_list output_csv w
  = (Ok tt,
     {| network := network w;
        requests_made := requests_made w;
        environ := environ w;
        trace :=
          (trace w
           ++ [ EvPrint (MissingKeys
                  ((if env_set (environ w "BRAVE_API_KEY") then []
                    else ["BRAVE_API_KEY"])
                   ++ (if env_set (environ w "ANTHROPIC_API_KEY") then []
                       else ["ANTHROPIC_API_KEY"]))%list);
                EvPrint EnvHint ])%list |}).
Proof.
  intros K. unfold analyze_decarbonization_goals, bind, os_getenv.
  assert (E : negb (env_set (environ w "BRAVE_API_KEY"))
              || negb (env_set (environ w "ANTHROPIC_API_KEY")) = true).
  { destruct K as [-> | ->]; [reflexivity | apply orb_true_r]. }
  rewrite E. unfold print, emit. cbn. now rewrite <- app_assoc.
Qed.

Lemma driver_stops_without_keys_witness :
  analyze_decarbonization_goals ["Acme Corp"; "Veolia"] "out.csv"
    (world_of [reply_200 acme_body] only_brave)
  = (Ok tt,
     {| network := fun n => nth n [reply_200 acme_body] Failed;
        requests_made := 0;
        environ := only_brave;
        trace := [ EvPrint (MissingKeys ["ANTHROPIC_API_KEY"]);
                   EvPrint EnvHint ] |}).
Proof.
  apply (driver_stops_without_keys ["Acme Corp"; "Veolia"] "out.csv"
           (world_of [reply_200 acme_body] only_brave)).
  right. reflexivity.
Defined.

(** ** The loop over the organizations *)

Lemma search_organization_requests (self : DecarbonizationAnalyzer)
    (org_name : string) (w : World) :
  (requests_made (snd (search_organization self org_name w))
   <= requests_made w + 2)%nat.
Proof.
  rewrite search_organization_cases. cbv zeta.
  destruct (rate_limited w); cbn; lia.
Qed.

Section Loop.
Context `{PyLib}.

Lemma infer_world (self : DecarbonizationAnalyzer) (prompt : string)
    (w : World) :
  snd (infer self prompt w)
  = after_request (inference_request self prompt) w.
Proof.
  unfold infer, try_except, bind, request, lift, ret.
  destruct (network w (requests_made w)) as [r|]; [|reflexivity].
  destruct (parse_inference r); reflexivity.
Qed.

Lemma analyze_search_results_requests (self : DecarbonizationAnalyzer)
    (org_name : string) (v : json) (w : World) :
  (requests_made (snd (analyze_search_results self org_name v w))
   <= requests_made w + 1)%nat.
Proof.
  unfold analyze_search_results.
  destruct (truthy v); cbn [negb]; [|cbn; lia].
  unfold bind, lift, ret.
  destruct (py_iter v) as [results|]; [|cbn; lia].
  destruct (build_context org_name results) as [context|]; [|cbn; lia].
  pose proof (infer_world self (build_prompt org_name context) w) as I.
  destruct (infer self (build_prompt org_name context) w) as [[parsed|e] w1];
    cbn [snd] in I; subst w1.
  - destruct (fallbacks org_name results parsed); cbn; lia.
  - cbn; lia.
Qed.

(** What a record returned by the extractor looks like. *)
Lemma analyze_search_results_record (self : DecarbonizationAnalyzer)
    (org_name : string) (v : json) (w w' : World) (rec : dict) :
  analyze_search_results self org_name v w = (Ok rec, w') ->
  dict_keys rec = five_keys
  /\ dict_lookup "organization" rec = Some (JStr org_name).
Proof.
  unfold analyze_search_results.
  destruct (truthy v); cbn [negb].
  - unfold bind, lift, ret.
    destruct (py_iter v) as [results|]; [|discriminate].
    destruct (build_context org_name results) as [context|]; [|discriminate].
    destruct (infer self _ w) as [[parsed|e] w1]; [|discriminate].
    destruct (fallbacks org_name results parsed); [|discriminate].
    intros [= <- _]. split; reflexivity.
  - intros [= <- _]. split; reflexivity.
Qed.

(** One step of the loop, as a function of the world. *)
Lemma analyze_all_step (analyzer : DecarbonizationAnalyzer)
    (org : string) (rest : list string) (results : list dict) (w : World) :
  analyze_all analyzer (org :: rest) results w
  = let w0 := snd (print (Analyzing org) w) in
    let '(sr, w1) := search_organization analyzer org w0 in
    match sr with
    | Raise e => (Raise e, w1)
    | Ok search_results =>
        let '(a, w2) := analyze_search_results analyzer org search_results w1 in
        match a with
        | Raise e => (Raise e, w2)
        | Ok analysis =>
            analyze_all analyzer rest (results ++ [analysis])%list
                        (snd (sleep 1 w2))
        end
    end.
Proof.
  cbn [analyze_all]. unfold bind at 1. cbn [print emit snd].
  unfold bind at 1.
  destruct (search_organization analyzer org _) as [[search_results|e] w1];
    [|reflexivity].
  unfold bind at 1.
  destruct (analyze_search_results analyzer org search_results w1)
    as [[analysis|e] w2]; [|reflexivity].
  reflexivity.
Qed.

End Loop.

(** X13. The loop sends at most three requests for each organization:
    the search, its one retry, and the inference. *)
Theorem analyze_all_request_bound `{PyLib}
    (analyzer : DecarbonizationAnalyzer) (org_list : list string)
    (results : list dict) (w : World) :
  (requests_made (snd (analyze_all analyzer org_list results w))
   <= requests_made w + 3 * List.length org_list)%nat.
Proof.
  revert results w. induction org_list as [|org rest IH]; intros results w.
  - cbn. lia.
  - rewrite analyze_all_step. cbv zeta.
    pose proof (search_organization_requests analyzer org
                  (snd (print (Analyzing org) w))) as S.
    destruct (search_organization analyzer org (snd (print (Analyzing org) w)))
      as [[search_results|e] w1]; cbn [snd] in S;
      cbn [print emit snd requests_made] in S.
    + pose proof (analyze_search_results_requests analyzer org
                    search_results w1) as A.
      destruct (analyze_search_results analyzer org search_results w1)
        as [[analysis|e] w2]; cbn [snd] in A.
      * specialize (IH (results ++ [analysis])%list (snd (sleep 1 w2))).
        assert (E : requests_made (snd (sleep 1 w2)) = requests_made w2)
          by reflexivity.
        cbn [List.length]. lia.
      * cbn [snd List.length]. lia.
    + cbn [snd List.length]. lia.
Qed.


(** X14. When the loop completes, it has added one record for each
    organization, in the order of the list; each record carries the name
    of its organization and has the five keys. *)
Theorem analyze_all_one_record_each `{PyLib}
    (analyzer : DecarbonizationAnalyzer) (org_list : list string)
    (results results' : list dict) (w w' : World) :
  analyze_all analyzer org_list results w = (Ok results', w') ->
  exists added,
    results' = (results ++ added)%list
    /\ map (dict_lookup "organization") added
       = map (fun org => Some (JStr org)) org_list
    /\ Forall (fun rec => dict_keys rec = five_keys) added.
Proof.
  revert results w. induction org_list as [|org rest IH]; intros results w.
  - cbn. intros [= <- _]. exists []. rewrite app_nil_r. auto.
  - rewrite analyze_all_step. cbv zeta.
    destruct (search_organization analyzer org (snd (print (Analyzing org) w)))
      as [[search_results|e] w1]; [|discriminate].
    destruct (analyze_search_results analyzer org search_results w1)
      as [[analysis|e] w2] eqn:A; [|discriminate].
    intros R. destruct (IH _ _ R) as (added & -> & Hn & Hk).
    destruct (analyze_search_results_record _ _ _ _ _ _ A) as [K O].
    exists (analysis :: added). rewrite <- app_assoc. cbn.
    rewrite O, Hn. auto.
Qed.

Lemma analyze_all_one_record_each_witness :
  exists added,
    [ [ ("organization", JStr "Acme Corp");
        ("has_goal", JStr "Yes");
        ("target_date", JStr "2035");
        ("source_url", JStr "https://acme.com/press");
        ("description", JStr "Acme targets net zero by 2035") ];
      not_found_record "Veolia" ]
    = ([] ++ added)%list
    /\ map (dict_lookup "organization") added
       = [Some (JStr "Acme Corp"); Some (JStr "Veolia")]
    /\ Forall (fun rec => dict_keys rec = five_keys) added.
Proof.
  exact (analyze_all_one_record_each analyzer0 ["Acme Corp"; "Veolia"] [] _
           (world_of [reply_200 acme_body; yes_reply; Failed] no_env) _
           eq_refl).
Defined.

(** ** The frame and the summary on a list that is not empty *)






(** ** Pacing *)

Lemma total_sleep_app (tr tr' : list event) :
  total_sleep (tr ++ tr')%list = total_sleep tr + total_sleep tr'.
Proof.
  induction tr as [|e tr IH]; cbn [app total_sleep]; [lia|].
  destruct e; rewrite IH; lia.
Qed.

Lemma search_organization_sleep (self : DecarbonizationAnalyzer)
    (org_name : string) (w : World) :
  total_sleep (trace (snd (search_organization self org_name w)))
  = total_sleep (trace w) + (if rate_limited w then 6 else 1).
Proof.
  rewrite search_organization_cases. cbv zeta.
  destruct (rate_limited w); cbn [snd trace]; rewrite !total_sleep_app;
    cbn; lia.
Qed.

Lemma analyze_search_results_sleep `{PyLib} (self : DecarbonizationAnalyzer)
    (org_name : string) (v : json) (w : World) :
  total_sleep (trace (snd (analyze_search_results self org_name v w)))
  = total_sleep (trace w).
Proof.
  unfold analyze_search_results.
  destruct (truthy v); cbn [negb]; [|reflexivity].
  unfold bind, lift, ret.
  destruct (py_iter v) as [results|]; [|reflexivity].
  destruct (build_context org_name results) as [context|]; [|reflexivity].
  pose proof (infer_world self (build_prompt org_name context) w) as I.
  destruct (infer self (build_prompt org_name context) w) as [[parsed|e] w1];
    cbn [snd] in I; subst w1.
  - destruct (fallbacks org_name results parsed); cbn [snd after_request trace];
      rewrite total_sleep_app; cbn; lia.
  - cbn [snd after_request trace]. rewrite total_sleep_app. cbn. lia.
Qed.

(** X16. When the loop completes, it has slept at least 2 and at most 7
    for each organization: 1 at the end of the search, 1 at the end of
    the turn, and 5 more when the search was rate limited. *)
Theorem analyze_all_pacing `{PyLib}
    (analyzer : DecarbonizationAnalyzer) (org_list : list string)
    (results results' : list dict) (w w' : World) :
  analyze_all analyzer org_list results w = (Ok results', w') ->
  total_sleep (trace w) + 2 * Z.of_nat (List.length org_list)
  <= total_sleep (trace w')
  <= total_sleep (trace w) + 7 * Z.of_nat (List.length org_list).
Proof.
  revert results w. induction org_list as [|org rest IH]; intros results w.
  - cbn. intros [= _ <-]. lia.
  - rewrite analyze_all_step. cbv zeta.
    pose proof (search_organization_sleep analyzer org
                  (snd (print (Analyzing org) w))) as S.
    destruct (search_organization analyzer org (snd (print (Analyzing org) w)))
      as [[search_results|e] w1]; [|discriminate].
    cbn [snd print emit trace] in S. rewrite total_sleep_app in S.
    cbn [total_sleep] in S.
    pose proof (analyze_search_results_sleep analyzer org search_results w1)
      as A.
    destruct (analyze_search_results analyzer org search_results w1)
      as [[analysis|e] w2]; [|discriminate].
    cbn [snd] in A.
    intros R. apply IH in R.
    cbn [sleep emit snd trace] in R. rewrite total_sleep_app in R.
    cbn [total_sleep] in R.
    cbn [List.length]. rewrite Nat2Z.inj_succ.
    destruct (rate_limited _); lia.
Qed.

Lemma analyze_all_pacing_witness :
  total_sleep (trace (world_of [reply_429; reply_200 acme_body; yes_reply;
                                Failed] no_env))
  + 2 * Z.of_nat (List.length ["Acme Corp"; "Veolia"])
  <= total_sleep
       (trace (snd (analyze_all analyzer0 ["Acme Corp"; "Veolia"] []
                      (world_of [reply_429; reply_200 acme_body; yes_reply;
                                 Failed] no_env))))
  <= total_sleep (trace (world_of [reply_429; reply_200 acme_body; yes_reply;
                                   Failed] no_env))
     + 7 * Z.of_nat (List.length ["Acme Corp"; "Veolia"]).
Proof.
  apply (analyze_all_pacing analyzer0 ["Acme Corp"; "Veolia"] []
           [ [ ("organization", JStr "Acme Corp");
               ("has_goal", JStr "Yes");
               ("target_date", JStr "2035");
               ("source_url", JStr "https://acme.com/press");
               ("description", JStr "Acme targets net zero by 2035") ];
             not_found_record "Veolia" ]).
  vm_compute. reflexivity.
Defined.

(** ** Which result a fallback takes *)

Section FirstResult.
Context `{PyLib}.

Lemma source_url_step_none (org_name : string) (x : json) :
  source_url_step org_name x = Ok None -> ~ offers_source_url org_name x.
Proof.
  intros S (url & U & T & M & B). unfold source_url_step in S.
  rewrite U in S. cbn [rbind] in S. rewrite T, M in S. cbn [rbind] in S.
  rewrite B in S. discriminate.
Qed.

Lemma description_step_none (org_name : string) (x : json) :
  description_step org_name x = Ok None -> ~ offers_description org_name x.
Proof.
  intros S (desc & D & G & P). unfold description_step in S.
  rewrite D in S. cbn [rbind] in S. rewrite G in S.
  rewrite (proj2 (both_checks_passes _ _) P) in S. discriminate.
Qed.

Lemma strip_head (s : string) (c : ascii) (t : string) :
  PyStr.strip s = String c t -> PyStr.isspace c = false.
Proof.
  unfold PyStr.strip.
  destruct (PyStr.lstrip_by PyStr.isspace s) as [|d u] eqn:L; [discriminate|].
  apply lstrip_by_head in L. cbn [PyStr.rstrip_by].
  destruct (PyStr.rstrip_by PyStr.isspace u).
  - rewrite L. now intros [= <- _].
  - now intros [= <- _].
Qed.

End FirstResult.

(** X17. The source_url fallback and the description fallback take the
    first result, in list order, that qualifies: when one of them changes
    the answer, the value comes from a result that offers it, and no
    result before that one does. *)
Theorem fallbacks_take_first_result `{PyLib}
    (org_name : string) (results : list json) (p p' : dict) :
  (fallback "source_url" (source_url_step org_name) results p = Ok p' ->
   p' <> p ->
   exists pre r post url,
     results = (pre ++ r :: post)%list
     /\ Forall (fun x => ~ offers_source_url org_name x) pre
     /\ offers_source_url org_name r
     /\ py_get r "url" (JStr "") = Ok url
     /\ p' = dict_set "source_url" url p)
  /\ (fallback "description" (description_step org_name) results p = Ok p' ->
      p' <> p ->
      exists pre r post desc,
        results = (pre ++ r :: post)%list
        /\ Forall (fun x => ~ offers_description org_name x) pre
        /\ offers_description org_name r
        /\ py_get r "description" (JStr "") = Ok (JStr desc)
        /\ p' = dict_set "description"
                  (JStr (PyStr.take 250 (PyStr.strip desc))) p).
Proof.
  split; intros F Hne;
    (destruct (fallback_cases _ _ _ _ _ F) as [->|(_ & v & Hv & ->)];
     [contradiction|]);
    apply first_hit_some in Hv;
    destruct Hv as (pre & r & post & -> & Hpre & Hr).
  - pose proof (source_url_step_some _ _ _ Hr) as (U & T & M & B).
    exists pre, r, post, v. repeat split; auto.
    + eapply Forall_impl; [|exact Hpre].
      intros x Hx. now apply source_url_step_none.
    + now exists v.
  - apply description_step_some in Hr. destruct Hr as (desc & D & G & B & ->).
    exists pre, r, post, desc. repeat split; auto.
    + eapply Forall_impl; [|exact Hpre].
      intros x Hx. now apply description_step_none.
    + exists desc. repeat split; auto; now apply both_checks_passes.
Qed.

Lemma fallbacks_take_first_result_witness :
  (exists pre r post url,
     [other_result; acme_result; acme_no_year] = (pre ++ r :: post)%list
     /\ Forall (fun x => ~ offers_source_url "Acme Corp" x) pre
     /\ offers_source_url "Acme Corp" r
     /\ py_get r "url" (JStr "") = Ok url
     /\ [("source_url", JStr "https://acme.com/press")]
        = dict_set "source_url" url [])
  /\ (exists pre r post desc,
        [other_result; acme_result; acme_no_year] = (pre ++ r :: post)%list
        /\ Forall (fun x => ~ offers_description "Acme Corp" x) pre
        /\ offers_description "Acme Corp" r
        /\ py_get r "description" (JStr "") = Ok (JStr desc)
        /\ [("description", JStr "Acme targets net zero by 2035")]
           = dict_set "description"
               (JStr (PyStr.take 250 (PyStr.strip desc))) []).
Proof.
  split.
  - apply (proj1 (fallbacks_take_first_result "Acme Corp"
                    [other_result; acme_result; acme_no_year] []
                    [("source_url", JStr "https://acme.com/press")]));
      [reflexivity | discriminate].
  - apply (proj2 (fallbacks_take_first_result "Acme Corp"
                    [other_result; acme_result; acme_no_year] []
                    [("description", JStr "Acme targets net zero by 2035")]));
      [reflexivity | discriminate].
Defined.

(** X18. A description stored by the fallback is never empty and never
    begins with white space. *)
Theorem fallback_description_not_blank `{PyLib}
    (org_name : string) (results : list json) (p p' : dict) :
  fallback "description" (description_step org_name) results p = Ok p' ->
  p' <> p ->
  exists c rest,
    dict_lookup "description" p' = Some (JStr (String c rest))
    /\ PyStr.isspace c = false.
Proof.
  intros F Hne.
  destruct (fallback_cases _ _ _ _ _ F) as [->|(_ & v & Hv & ->)];
    [contradiction|].
  apply first_hit_some in Hv.
  destruct Hv as (pre & r & post & _ & _ & Hr).
  apply description_step_some in Hr. destruct Hr as (desc & _ & G & _ & ->).
  rewrite dict_lookup_set_same.
  pose proof (mentions_goal_not_blank desc G) as N.
  destruct (PyStr.strip desc) as [|c t] eqn:S; [now destruct N|].
  exists c, (PyStr.take 249 t). split; [reflexivity|].
  now apply (strip_head desc c t).
Qed.

Lemma fallback_description_not_blank_witness :
  exists c rest,
    dict_lookup "description"
      [("description", JStr "Acme: Net Zero, by 2040.")]
    = Some (JStr (String c rest))
    /\ PyStr.isspace c = false.
Proof.
  apply (fallback_description_not_blank "Acme Corp" [padded_result] []
           [("description", JStr "Acme: Net Zero, by 2040.")]);
    [reflexivity | discriminate].
Defined.

(** ** The prompt, and what the extractor does to the world *)

Section Prompt.
Context `{PyLib}.

Lemma context_entry_record (r : json) :
  (exists entry, context_entry r = Ok entry) <-> is_record r.
Proof.
  unfold context_entry, py_get, is_record. split.
  - intros (entry & E). destruct r; try discriminate E. eauto.
  - intros (d & ->). cbn. eauto.
Qed.

Lemma context_entry_not_record (r : json) :
  ~ is_record r -> context_entry r = Raise AttributeError.
Proof.
  unfold context_entry, py_get, is_record. intros N.
  destruct r; try reflexivity. exfalso. eauto.
Qed.

Lemma add_entries_raises (rs : list json) : forall context,
  Exists (fun r => ~ is_record r) rs ->
  add_entries context rs = Raise AttributeError.
Proof.
  induction rs as [|r rs IH]; intros context E; [inversion E|].
  cbn [add_entries].
  destruct (context_entry r) as [entry|e] eqn:C.
  - cbn [rbind]. apply IH. inversion E as [? ? N|]; subst; [|assumption].
    rewrite (context_entry_not_record r N) in C. discriminate.
  - cbn [rbind]. inversion E as [? ? N|? ? E']; subst.
    + rewrite (context_entry_not_record r N) in C. congruence.
    + destruct r; cbn in C; try (injection C as <-; reflexivity).
      discriminate.
Qed.

Lemma add_entries_concat (rs : list json) : forall context c,
  add_entries context rs = Ok c ->
  exists entries,
    Forall2 (fun r entry => context_entry r = Ok entry) rs entries
    /\ c = context ++ String.concat "" entries.
Proof.
  induction rs as [|r rs IH]; intros context c; cbn [add_entries].
  - intros [= <-]. exists []. split; [constructor|].
    cbn. clear. induction context as [|a context IH]; cbn; congruence.
  - destruct (context_entry r) as [entry|] eqn:C; [|discriminate].
    cbn [rbind]. intros A. destruct (IH _ _ A) as (entries & F & ->).
    exists (entry :: entries). split; [now constructor|].
    clear. revert entry.
    assert (App : forall a b c : string, (a ++ b) ++ c = a ++ b ++ c).
    { intros a b c. induction a as [|x a IHa]; cbn; congruence. }
    intros entry. rewrite App. f_equal.
    destruct entries as [|e entries]; cbn.
    + clear App. induction entry as [|x entry IHe]; cbn; congruence.
    + reflexivity.
Qed.

End Prompt.

(** X19. A value of search results that is true but is not a list of
    records (a list with an item that is not a dict, a text, a number, a
    non-empty dict) makes [analyze_search_results] raise before anything
    is sent: the world is left as it was. *)
Theorem analyze_search_results_rejects_non_records `{PyLib}
    (self : DecarbonizationAnalyzer) (org_name : string) (v : json)
    (w : World) :
  truthy v = true ->
  (forall l, v = JArr l -> Exists (fun r => ~ is_record r) l) ->
  exists e, analyze_search_results self org_name v w = (Raise e, w).
Proof.
  intros T L. unfold analyze_search_results. rewrite T. cbn [negb].
  unfold bind, lift, build_context.
  destruct v as [|b|z|q|s|l|d]; cbn [py_iter]; try (eexists; reflexivity).
  - destruct s as [|c s]; [discriminate T|]. cbn. eexists; reflexivity.
  - rewrite (add_entries_raises l _ (L l eq_refl)). eexists; reflexivity.
  - destruct d as [|[k x] d]; [discriminate T|]. cbn. eexists; reflexivity.
Qed.

Lemma analyze_search_results_rejects_non_records_witness :
  exists e,
    analyze_search_results analyzer0 "Acme Corp"
      (JArr [acme_result; JStr "not a record"])
      (world_of [yes_reply] no_env)
    = (Raise e, world_of [yes_reply] no_env).
Proof.
  apply (analyze_search_results_rejects_non_records analyzer0 "Acme Corp").
  - reflexivity.
  - intros l [= <-]. apply Exists_cons_tl, Exists_cons_hd.
    intros (d & E). discriminate E.
Defined.

(** X20. The context put in the prompt is the heading followed by one
    entry for each result, in the order of the list; an entry exists
    exactly for the results that are records. *)
Theorem build_context_lists_every_result `{PyLib}
    (org_name : string) (search_results : list json) (context : string) :
  build_context org_name search_results = Ok context ->
  exists entries,
    Forall2 (fun r entry => context_entry r = Ok entry) search_results entries
    /\ Forall is_record search_results
    /\ context = ("Search results for " ++ org_name ++ ":" ++ nl)
                 ++ String.concat "" entries.
Proof.
  unfold build_context. intros B.
  destruct (add_entries_concat _ _ _ B) as (entries & F & ->).
  exists entries. repeat split; auto.
  clear B. induction F as [|r entry rs entries E _ IH]; constructor; auto.
  apply context_entry_record. eauto.
Qed.

Lemma build_context_lists_every_result_witness :
  exists entries,
    Forall2 (fun r entry => context_entry r = Ok entry)
            [acme_result; JObj []] entries
    /\ Forall is_record [acme_result; JObj []]
    /\ ("Search results for Acme Corp:" ++ nl
        ++ "Title: Acme decarbonization" ++ nl
        ++ "Description: Acme targets net zero by 2035" ++ nl
        ++ "URL: https://acme.com/press" ++ nl ++ nl
        ++ "Title: None" ++ nl ++ "Description: None" ++ nl
        ++ "URL: None" ++ nl ++ nl)
       = ("Search results for " ++ "Acme Corp" ++ ":" ++ nl)
         ++ String.concat "" entries.
Proof.
  apply (build_context_lists_every_result "Acme Corp" [acme_result; JObj []]).
  reflexivity.
Defined.

(** X21. Its logging aside, all that [analyze_search_results] does to
    the world is to send at most one request, the inference request: it
    sends no search request, never sleeps and prints nothing on the
    console. *)
Theorem analyze_search_results_only_posts `{PyLib}
    (self : DecarbonizationAnalyzer) (org_name : string) (v : json)
    (w : World) :
  snd (analyze_search_results self org_name v w) = w
  \/ exists prompt,
       snd (analyze_search_results self org_name v w)
       = after_request (inference_request self prompt) w.
Proof.
  unfold analyze_search_results.
  destruct (truthy v); cbn [negb]; [|now left].
  unfold bind, lift, ret.
  destruct (py_iter v) as [results|]; [|now left].
  destruct (build_context org_name results) as [context|]; [|now left].
  right. exists (build_prompt org_name context).
  pose proof (infer_world self (build_prompt org_name context) w) as I.
  destruct (infer self (build_prompt org_name context) w) as [[parsed|e] w1];
    cbn [snd] in I; subst w1; [|reflexivity].
  destruct (fallbacks org_name results parsed); reflexivity.
Qed.
